(** * The performance notebook (03_performance.ipynb)

    The repository is one Jupyter notebook.  Its code cells are short
    IPython scripts: line magics ([%env], [%run]), one shell escape, two
    imports, two assignments and one counted loop.  This development
    embeds the text of the notebook, splits every code cell into IPython
    statements, gives the statements an operational semantics over the
    process environment, the interactive namespace, the items of
    external objects, the text written, the shell commands run, the
    trace of benchmark invocations and the tracebacks shown, and proves
    what the specification states about them.

    The cells are read as IPython reads them.  A line that starts with
    [%] or [!] is a magic or a shell escape wherever it stands.  A
    magic written without its [%] is taken for the magic only when the
    line is the whole cell and its name is not bound in the namespace;
    in a cell of several lines such a line is Python, and since
    [run $benchmark ...] is no Python the cell does not compile and
    nothing of it runs.  [%run] looks for the script file and raises
    into the cell when there is none; it runs the script in a namespace
    of its own, catches whatever the script raises, shows the traceback
    and copies the script's globals into the interactive namespace.

    What lies outside the notebook is kept abstract.  The benchmark
    script and the file system are an oracle that says, for each [%run]
    statement, whether the script file is found, what the script raises
    and which globals it leaves.  The packages [examples] and [devito]
    are taken to be installed: an import binds a reference to the
    external object.  The names [print] and [range] stand for the
    built-in functions.  The cells run top to bottom and an error ends
    the run, as with Run All. *)

From Stdlib Require Import Ascii DecimalString.
From stdpp Require Import base option list sorting gmap strings.

Set Warnings "-register-all".

(** ** Text helpers *)

(** The double-quote character, spelled by its code. *)
Definition dq : string := String (Ascii.ascii_of_nat 34) EmptyString.

Fixpoint lstrip (s : string) : string :=
  match s with
  | String a s' => if Ascii.is_space a then lstrip s' else s
  | EmptyString => EmptyString
  end.

Definition strip (s : string) : string :=
  String.rev (lstrip (String.rev (lstrip s))).

(** Number of leading blanks: the indentation of a line. *)
Fixpoint indent_of (s : string) : nat :=
  match s with
  | String a s' => if Ascii.is_space a then S (indent_of s') else 0
  | EmptyString => 0
  end.

Fixpoint starts_with (p s : string) : bool :=
  match p, s with
  | EmptyString, _ => true
  | String a p', String b s' => if decide (a = b) then starts_with p' s' else false
  | String _ _, EmptyString => false
  end.

Fixpoint is_infix (p s : string) : bool :=
  starts_with p s ||
  match s with
  | String _ s' => is_infix p s'
  | EmptyString => false
  end.

Fixpoint drop_chars (n : nat) (s : string) : string :=
  match n, s with
  | S n', String _ s' => drop_chars n' s'
  | _, _ => s
  end.

Definition ends_with (p s : string) : bool :=
  starts_with (String.rev p) (String.rev s).

(** [cut_at sep s] splits [s] at the first occurrence of [sep]. *)
Fixpoint cut_at (sep s : string) : option (string * string) :=
  if starts_with sep s then Some (EmptyString, drop_chars (String.length sep) s)
  else match s with
       | String a s' =>
           match cut_at sep s' with
           | Some (l, r) => Some (String a l, r)
           | None => None
           end
       | EmptyString => None
       end.

(** ** The notebook *)

Inductive cell :=
  | Markdown (source : list string)
  | Code (source : list string).

(** The cells of the notebook, in order, one string per source line
    (the line terminator is dropped). *)
Definition cells : list cell :=
  [
    (* cell 0 *)
    Markdown
    [ "# Performance Optimization and Analysis" ];
    (* cell 1 *)
    Markdown
    [ "In this tutorial, we will:";
      EmptyString;
      "* learn to optimize the performance of an `Operator`,";
      "* investigate the effects of optimization in two real-life seismic inversion `Operator`s,";
      "* analyze and interpret the performance report displayed after a run.";
      EmptyString;
      "We will rely on preset models and `Operator`s from a seismic inversion problem based on an **isotropic acoustic wave equation**. To run one such `Operator`, in particular a forward modeling operator, we will exploit the `benchmark.py` module. This provides a number of options to configure the simulation and to try out different optimizations. The `benchmark.py` is intended to let newcomers play with Devito -- and its performance optimizations! -- without having to know anything about its symbolic language, mechanisms and functioning." ];
    (* cell 2 *)
    Code
    [ "import examples.seismic.benchmark";
      "benchmark = examples.seismic.benchmark.__file__" ];
    (* cell 3 *)
    Code
    [ "# For a full list of options";
      "%run $benchmark --help" ];
    (* cell 4 *)
    Markdown
    [ "OK, now we want Devito to run this `Operator`." ];
    (* cell 5 *)
    Code
    [ "%run $benchmark run -P acoustic" ];
    (* cell 6 *)
    Markdown
    [ "That was simple. Of course, we may want to run the same simulation on a bigger grid, with different grid point spacing or space order, and so on. And yes, we'll do this later on in the tutorial. But before scaling up in problem size, we shall take a look at what sort of performance optimizations we'll be able to apply to speed it up.";
      EmptyString;
      "In essence, there are four knobs we can play with to maximize the `Operator` performance (or to see how the performace varies when adding or removing specific transformations):";
      EmptyString;
      "* parallelism,";
      "* the Devito Symbolic Engine (DSE) optimization level,";
      "* the Devito Loop Engine (DLE) optimization level,";
      "* loop blocking auto-tuning.";
      EmptyString;
      "## Shared-memory parallelism";
      EmptyString;
      "We start with the most obvious -- parallelism. Devito implements shared-memory parallelism via OpenMP. To enable it, the following environment variable needs to be set:" ];
    (* cell 7 *)
    Code
    [ "%env DEVITO_OPENMP=1" ];
    (* cell 8 *)
    Markdown
    [ "Multiple threads will now be used when running an `Operator`. But how many? And how efficiently? We may be running on a multi-socket node -- how should we treat it, as a " +:+ dq +:+ "flatten system" +:+ dq +:+ " or what?";
      EmptyString;
      "Devito aims to use distributed-memory parallelism over multi-socket nodes; that is, it allocates one MPI process per socket, and each MPI process should spawn as many OpenMP threads as the number of cores on the socket. Users don't get all this for free, however; a minimal configuration effort is required. But don't worry: as you shall see, it's much simpler than it sounds!";
      EmptyString;
      "For this tutorial, we forget about MPI; we rather focus on enabling OpenMP on a single socket. So, first of all, we want to restrain execution to a single socket -- we want threads to stay on that socket without ever migrating to other cores of the system due to OS scheduling. Are we really on a multi-socket node? And how many cores does a socket have? Let's find out. We shall use a very standard tool such as `lscpu` on Linux systems." ];
    (* cell 9 *)
    Code
    [ "! lscpu" ];
    (* cell 10 *)
    Markdown
    [ "A line beginning with `'NUMA node...'` represents one specific socket. Its value (on the right hand side, after the ':') indicates the ID ranges of its logical cores. For example, if our node consisted of two sockets, each socket having 8 physical cores and 2 hyperthreads per core, we would see something like";
      EmptyString;
      "```";
      "...";
      "NUMA node0 CPU(s):     0-7,16-23";
      "NUMA node1 CPU(s):     8-15,24-31";
      "...";
      "```";
      EmptyString;
      "Now, say we choose to run on the 8 cores of socket 0 (``node0``). We then simply have to set the following OpenMP environment variable:" ];
    (* cell 11 *)
    Code
    [ "%env OMP_NUM_THREADS=8" ];
    (* cell 12 *)
    Markdown
    [ "Thus, 8 threads will be spawned each time an `Operator` is run. They will be killed as soon as the `Operator` has done its job. ";
      EmptyString;
      "We also want to **bind** them to the physical cores of socket 0; that is, we want to prevent OS-induced migration. This is known as *thread pinning*. One may use a program such as ``numactl`` or, alternatively, exploit other OpenMP environment variables. If the Intel compiler is at our disposal, we can also enforce pinning through the following two-step procedure:";
      EmptyString;
      "* We ask Devito to use the Intel compiler through the special `DEVITO_ARCH` environment variable;";
      "* We set the Intel-specific `KMP_HW_SUBSET` and `KMP_AFFINITY` environment variables.";
      EmptyString;
      "Let's see how we can do this in practice, and what's the impact on performance." ];
    (* cell 13 *)
    Markdown
    [ "We run the isotropic acoustic forward operator again, but this time with a much larger grid, a 512x512x512 cube, and a more realistic space order, 8. We also shorten the duration by deliberately choosing a very small simulation end time (50 ms)." ];
    (* cell 14 *)
    Code
    [ "# Thread pinning";
      "%env KMP_HW_SUBSET=8c,1t";
      "%env KMP_AFFINITY=compact";
      "# Tell Devito to use the Intel compiler";
      "%env DEVITO_ARCH=intel";
      "# or, equivalently, programmatically";
      "from devito import configuration";
      "configuration['compiler'] = 'intel'";
      EmptyString;
      "for i in range(3):";
      "    print (" +:+ dq +:+ "Run %d" +:+ dq +:+ " % i)";
      "    %run $benchmark run -P acoustic -so 8 -d 256 256 256 --tn 50" ];
    (* cell 15 *)
    Markdown
    [ "Observation: the execution times are stable. This is a symptom that thread pinning is working. In practice, don't forget to check by taking a look at OpenMP reports or using profilers (e.g., Intel VTune) or through user-friendly tools such as `htop`." ];
    (* cell 16 *)
    Markdown
    [ "## DSE - Devito Symbolic Engine";
      EmptyString;
      "We know how to switch on parallelism. So, it's finally time to see what kind of optimizations can Devito perform. By default, Devito aggressively optimizes all `Operator`s. When running through `benchmark.py`, however, optimizations are left disabled until users explicitly request them. This, hopefully, simplifies initial experimentation and investigation.";
      EmptyString;
      "Let's then dive into to the Devito Symbolic Engine (or DSE) section of this tutorial. It is worth observing that the DSE is one of the distinguishing features of Devito w.r.t. many other stencil frameworks! Why is that? This is what the documentation says about the DSE:";
      EmptyString;
      "> [The DSE performs] Flop-count optimizations - They aim to reduce the operation count of an Operator. These include, for example, code motion, factorization, and detection of cross-stencil redundancies. The flop-count optimizations are performed by routines built on top of SymPy.";
      EmptyString;
      "So the DSE reduces the flop count of `Operator`s. This is particularly useful in the case of complicated PDEs, for example those making extensive use of differential operators. And even more important in high order methods. In such cases, it's not unusual to end up with kernels requiring hundreds of arithmetic operations per grid point calculation. Since Devito doesn't make assumptions about the PDEs, the presence of an optimization system such as the DSE becomes of fundamental importance. In fact, we know that its impact has been remarkable in real-life siesmic inversion operators that have been written on top of Devito (e.g., TTI operators).";
      EmptyString;
      "Let's see what happens enabling the DSE in our acoustic operator." ];
    (* cell 17 *)
    Code
    [ "run $benchmark run -P acoustic -so 8 -d 256 256 256 --tn 50 -dse advanced" ];
    (* cell 18 *)
    Markdown
    [ "Compared to the previous runs, do you note any change ...";
      EmptyString;
      "* in the Devito output reports?";
      "* in execution times? why?";
      EmptyString;
      "And why, from a performance analysis point of view, is the DSE useful even though no changes in execution times are observed?" ];
    (* cell 19 *)
    Markdown
    [ "## DLE - Devito Loop Engine";
      EmptyString;
      "We know how to switch on parallelism and how to leverage the DSE to reduce the flop count of our stencil equations. What's still missing are SIMD vectorization and optimizations for data locality. We won't be able to reach a significant fraction of the attainable machine peak without aggressive loop transformations. Clearly, Devito users don't " +:+ dq +:+ "see" +:+ dq +:+ " loops -- in fact, they only write maths in Python! -- but the generated code is nothing more than classic C with loop nests for grid function updates. So how do these " +:+ dq +:+ "low-level loops" +:+ dq +:+ " get optimized? Quoting from the documentation:";
      EmptyString;
      "> Loop optimizations - Examples include SIMD vectorization and loop blocking. These are performed by the Devito Loop Engine (DLE), a sub-module consisting of a sequence of compiler passes manipulating abstract syntax trees [...]";
      EmptyString;
      "In other words, the Devito compiler, through the DLE module, automatically applies loop transformations. The **how it does that**(i.e., manipulation of an intermediate representation), here, is irrelevant; we rather want to understand **what the DLE can do**, **how to use** it and what kind of **tuning** is required to maximize the performance of an `Operator`. As we shall see, using and tuning the DLE will be as simple as switching on some special environment variables!";
      EmptyString;
      "So here's a (non complete) list of transformations that the DLE will automatically apply for you:";
      EmptyString;
      "* SIMD Vectorization";
      "* Loop blocking";
      "* Optimization of so called " +:+ dq +:+ "remainder" +:+ dq +:+ " loops";
      "* Creation of elemental functions";
      EmptyString;
      "Before enabling the DLE, let's first run a problem bigger than those tried in the previous sections. We pick a 512\*\*3 grid to be 100% sure that the working set of our simulation won't fit in some level of cache." ];
    (* cell 20 *)
    Code
    [ "run $benchmark run -P acoustic -so 8 -d 512 512 512 --tn 50 -dse advanced" ];
    (* cell 21 *)
    Markdown
    [ "OK, let's run the same problem with the DLE at maximum level (it's gonna apply **all** optimizations listed above). Can you guess whether the performance will be substantially better? Why?" ];
    (* cell 22 *)
    Code
    [ "run $benchmark run -P acoustic -so 8 -d 512 512 512 --tn 50 -dse advanced -dle advanced" ];
    (* cell 23 *)
    Markdown
    [ "Can we make the `Operator` run quicker? Yes !";
      EmptyString;
      "What we are missing so far is performance tuning. Take loop blocking, for example. This is a *parametric loop transformation*: its impact will vary depending on block shape, size and scheduling. In the literature, over the years, dozens of different loop blocking strategies have been studied! Even though we used the simplest loop blocking scheme on Earth, we would need **at least** to come up with a block size fitting in some level of cache. Obviously, this is such a low level detail... and we don't want users to waste any time on thinking about these matters!";
      EmptyString;
      "Like other frameworks, Devito can automatically detect a " +:+ dq +:+ "sufficiently good" +:+ dq +:+ " block size through an *auto-tuning engine*. Let's try it out; in particular, we tell Devito to be " +:+ dq +:+ "aggressive" +:+ dq +:+ " in the search for block sizes. Being " +:+ dq +:+ "aggressive" +:+ dq +:+ " means that more time will be spent on auto-tuning, but there's a greater chance of retrieving a better candidate. We do this through the `DEVITO_AUTOTUNING` environment variable." ];
    (* cell 24 *)
    Code
    [ "%env DEVITO_AUTOTUNING=aggressive";
      "run $benchmark run -P acoustic -so 8 -d 512 512 512 --tn 50 -dse advanced -dle advanced -a" ];
    (* cell 25 *)
    Markdown
    [ "Note that we have added `-a` to the arguments list of our benchmarking script. This switches on auto-tuning; the `DEVITO_AUTOTUNING=aggressive` flag drives the auto-tuner.";
      EmptyString;
      "Do you note any difference in performance? Why?" ];
    (* cell 26 *)
    Markdown
    [ "## A sneak peek at the YASK backend";
      EmptyString;
      "YASK -- Yet Another Stencil Kernel -- is, as described on its GitHub page:";
      "> a framework to facilitate exploration of the HPC stencil-performance design space.";
      EmptyString;
      "It operates at a level of abstraction lower than Devito's (e.g., no symbolic language is available). We've been working on integrating YASK with Devito, as of its " +:+ dq +:+ "backends" +:+ dq +:+ ". This means that, under-the-hood, Devito may " +:+ dq +:+ "offload" +:+ dq +:+ " sections of an `Operator` to YASK. This is totally transparent to users; that is, no changes to existing user (Devito) code are required to exploit the YASK technology.";
      EmptyString;
      "To ask Devito to try using YASK, one only has to set a mere environment variable. Let's see how the performance varies with YASK." ];
    (* cell 27 *)
    Code
    [ "%env DEVITO_BACKEND=yask";
      "run $benchmark run -P acoustic -so 8 -d 512 512 512 --tn 50 -dse advanced" ];
    (* cell 28 *)
    Markdown
    [ "We didn't even have to specify `-a` or `-dle advanced` because YASK takes responsability of loop optimization and auto-tuning. " ];
    (* cell 29 *)
    Markdown
    [ "## Exercise: Try yourself with a TTI forward Operator";
      EmptyString;
      EmptyString;
      "Quickly show unoptimized (but parallel) vs +loop_blocking vs +loop_blocking+DSEaggressive" ];
    (* cell 30 *)
    Markdown
    [ "<sup>This notebook is part of the tutorial " +:+ dq +:+ "Optimised Symbolic Finite Difference Computation with Devito" +:+ dq +:+ " presented at the Intel® HPC Developer Conference 2017.</sup>" ]
  ].

Definition code_cells : list (list string) :=
  omap (fun c => match c with Code src => Some src | Markdown _ => None end) cells.

(** ** Statements of a code cell *)

(** The Python expressions that occur in the cells. *)
Inductive expr :=
  | EStr (s : string)                        (* 'intel' *)
  | EInt (n : nat)                           (* 3 *)
  | EPath (root : string) (attrs : list string)  (* a.b.c *)
  | EFormat (fmt arg : expr)                 (* fmt % arg *)
  | ERange (stop : expr)                     (* range(stop) *)
  | EOther (text : string).

(** How a line magic is written.  A line that starts with [%] is
    turned into the magic wherever it stands, also inside a block: a
    static transformation of IPython's [transform_cell].  A magic
    written without its [%] is found by a dynamic transformation
    (automagic), and [transform_cell] applies those to a cell of one
    line only:

      if len(cell.splitlines()) == 1:
          cell = self.prefilter_manager.prefilter_lines(cell) + '\n'

    In a cell of several lines such a line stays as it is written, and
    is Python. *)
Inductive spelling :=
  | Percent                                  (* %run ... *)
  | Bare (single_line : bool).               (* run ..., alone in its cell or not *)

(** What one logical line of a cell is: a line magic, a shell escape,
    or Python. *)
Inductive head :=
  | HEnv (var value : string)                (* %env VAR=value *)
  | HRun (written : spelling) (target : string) (argv : list string)
                                             (* %run target argv, or run target argv *)
  | HMagic (name rest : string)              (* any other line magic *)
  | HShell (cmd : string)                    (* ! cmd *)
  | HImport (module : string)                (* import module *)
  | HFromImport (module name : string)       (* from module import name *)
  | HAssign (target : string) (e : expr)     (* target = e *)
  | HSetItem (obj : string) (key e : expr)   (* obj[key] = e *)
  | HFor (var : string) (iter : expr)        (* for var in iter: *)
  | HPrint (e : expr)                        (* print (e) *)
  | HKeyword (kw rest : string)              (* def, class, try, if, while, with, ... *)
  | HExpr (e : expr).

Inductive stmt :=
  | Simple (h : head)
  | Block (h : head) (body : list stmt).

(** *** Expressions *)

Definition is_digit (a : ascii) : bool := bool_decide (is_Some (Ascii.is_nat a)).

Definition is_ident_char (a : ascii) : bool :=
  let n := Ascii.nat_of_ascii a in
  is_digit a || bool_decide (a = "_"%char)
  || (Nat.leb 65 n && Nat.leb n 90) || (Nat.leb 97 n && Nat.leb n 122).

Fixpoint all_chars (p : ascii -> bool) (s : string) : bool :=
  match s with
  | String a s' => p a && all_chars p s'
  | EmptyString => true
  end.

Fixpoint nat_of_digits (acc : nat) (s : string) : nat :=
  match s with
  | String a s' => nat_of_digits (10 * acc + default 0 (Ascii.is_nat a)) s'
  | EmptyString => acc
  end.

(** [split_dots s] cuts a dotted name at its dots. *)
Fixpoint split_dots (cur : string) (s : string) : list string :=
  match s with
  | String a s' =>
      if decide (a = "."%char) then String.rev cur :: split_dots EmptyString s'
      else split_dots (String a cur) s'
  | EmptyString => [String.rev cur]
  end.

(** The text between a pair of matching quotes, when [t] is one string
    literal. *)
Definition unquote (t : string) : option string :=
  match t with
  | String q t' =>
      if bool_decide (q = "'"%char) || bool_decide (String q EmptyString = dq) then
        match String.rev t' with
        | String q' r =>
            if bool_decide (q = q') && negb (is_infix (String q EmptyString) r)
            then Some (String.rev r) else None
        | EmptyString => None
        end
      else None
  | EmptyString => None
  end.

Definition parse_atom (t : string) : expr :=
  let t := strip t in
  match unquote t with
  | Some s => EStr s
  | None =>
      match t with
      | EmptyString => EOther t
      | String a _ =>
          if all_chars is_digit t then EInt (nat_of_digits 0 t)
          else if negb (is_digit a)
                  && all_chars (fun c => is_ident_char c || bool_decide (c = "."%char)) t
          then match split_dots EmptyString t with
               | root :: attrs => EPath root attrs
               | [] => EOther t
               end
          else EOther t
      end
  end.

Definition parse_expr (t : string) : expr :=
  let t := strip t in
  if starts_with "range(" t && ends_with ")" t then
    ERange (parse_atom (String.rev (drop_chars 1 (String.rev (drop_chars 6 t)))))
  else
    match cut_at " % " t with
    | Some (l, r) => EFormat (parse_atom l) (parse_atom r)
    | None => parse_atom t
    end.

(** *** Lines *)

(** Words that start a Python statement other than the ones given a
    constructor of their own. *)
Definition keywords : list string :=
  ["def"; "class"; "lambda"; "try"; "except"; "finally"; "raise"; "assert";
   "if"; "elif"; "else"; "while"; "with"; "return"; "yield"; "pass"; "break";
   "continue"; "del"; "global"; "nonlocal"; "async"; "await"].

(** The leading word of a line, up to the first blank, colon or
    parenthesis. *)
Fixpoint leading_word (s : string) : string :=
  match s with
  | String a s' =>
      if Ascii.is_space a || bool_decide (a = ":"%char) || bool_decide (a = "("%char)
      then EmptyString else String a (leading_word s')
  | EmptyString => EmptyString
  end.

Definition after_word (w l : string) : string := strip (drop_chars (String.length w) l).

(** A line magic with its argument text. *)
Definition classify_magic (written : spelling) (name rest : string) : head :=
  if bool_decide (name = "env") then
    match cut_at "=" rest with
    | Some (var, value) => HEnv (strip var) (strip value)
    | None => HMagic name rest
    end
  else if bool_decide (name = "run") then
    match String.words rest with
    | target :: argv =>
        if starts_with "-" target then HMagic name rest else HRun written target argv
    | [] => HMagic name rest
    end
  else HMagic name rest.

(** Strips one pair of enclosing parentheses. *)
Definition unparen (t : string) : string :=
  let t := strip t in
  if starts_with "(" t && ends_with ")" t
  then String.rev (drop_chars 1 (String.rev (drop_chars 1 t))) else t.

Definition classify_python (l : string) : head :=
  let w := leading_word l in
  let rest := after_word w l in
  if bool_decide (w = "import") then HImport rest
  else if bool_decide (w = "from") then
    match cut_at " import " rest with
    | Some (m, n) => HFromImport (strip m) (strip n)
    | None => HExpr (EOther l)
    end
  else if bool_decide (w = "for") then
    match cut_at " in " rest with
    | Some (x, it) =>
        if ends_with ":" it
        then HFor (strip x) (parse_expr (String.rev (drop_chars 1 (String.rev it))))
        else HExpr (EOther l)
    | None => HExpr (EOther l)
    end
  else if bool_decide (w ∈ keywords) then HKeyword w rest
  else if bool_decide (w = "print") then HPrint (parse_expr (unparen rest))
  else
    match cut_at " = " l with
    | Some (lhs, rhs) =>
        match cut_at "[" lhs with
        | Some (obj, key) =>
            if ends_with "]" key
            then HSetItem (strip obj)
                   (parse_expr (String.rev (drop_chars 1 (String.rev key))))
                   (parse_expr rhs)
            else HExpr (EOther l)
        | None => HAssign (strip lhs) (parse_expr rhs)
        end
    | None => HExpr (parse_expr l)
    end.

(** The function part of a line, as [split_user_input] cuts it off:
    the longest run of letters, digits, [_], [.] and [*] the line
    starts with. *)
Fixpoint leading_name (s : string) : string :=
  match s with
  | String a s' =>
      if is_ident_char a || bool_decide (a = "."%char) || bool_decide (a = "*"%char)
      then String a (leading_name s') else EmptyString
  | EmptyString => EmptyString
  end.

(** [classify single_line l] reads one stripped, non-blank,
    non-comment line of a cell; [single_line] says whether the line is
    the whole cell.  A line whose function part is [run], and which
    does not go on with [=] or [,] (an assignment, which
    [AssignmentChecker] leaves to Python), is the magic written
    without [%]; the way it is written is kept, for it decides whether
    IPython runs it.  Of the magics only [run] is read in this
    spelling: the cells write no other without [%]. *)
Definition classify (single_line : bool) (l : string) : head :=
  if starts_with "!" l then HShell (strip (drop_chars 1 l))
  else if starts_with "%" l then
    let w := leading_word (drop_chars 1 l) in
    classify_magic Percent w (after_word w (drop_chars 1 l))
  else
    let w := leading_name l in
    let rest := after_word w l in
    if bool_decide (w = "run") && negb (starts_with "=" rest) && negb (starts_with "," rest)
    then classify_magic (Bare single_line) w rest
    else classify_python l.

(** *** Cells *)

(** Blank lines and comment lines are no statements. *)
Definition is_code_line (l : string) : bool :=
  match lstrip l with
  | EmptyString => false
  | String a _ => negb (bool_decide (a = "#"%char))
  end.

Definition logical_lines (src : list string) : list (nat * string) :=
  (fun l => (indent_of l, strip l)) <$> filter (fun l => is_code_line l = true) src.

Definition opens_block (h : head) : bool :=
  match h with
  | HFor _ _ => true
  | HKeyword _ rest => ends_with ":" rest
  | _ => false
  end.

(** The lines of a body: the longest run indented deeper than [ind]. *)
Fixpoint body_lines {A} (ind : nat) (ls : list (nat * A)) : list (nat * A) :=
  match ls with
  | l :: ls' => if Nat.ltb ind (fst l) then l :: body_lines ind ls' else []
  | [] => []
  end.

Fixpoint after_body {A} (ind : nat) (ls : list (nat * A)) : list (nat * A) :=
  match ls with
  | l :: ls' => if Nat.ltb ind (fst l) then after_body ind ls' else ls
  | [] => []
  end.

(** Lines indented deeper than a block header form its body. *)
Fixpoint parse_lines (fuel : nat) (ls : list (nat * head)) : list stmt :=
  match fuel with
  | 0 => []
  | S fuel' =>
      match ls with
      | [] => []
      | (ind, h) :: rest =>
          if opens_block h then
            Block h (parse_lines fuel' (body_lines ind rest))
              :: parse_lines fuel' (after_body ind rest)
          else Simple h :: parse_lines fuel' rest
      end
  end.

(** [transform_cell] drops the blank lines a cell starts with
    ([leading_empty_lines]) before it counts the lines. *)
Fixpoint leading_empty_lines (src : list string) : list string :=
  match src with
  | l :: src' =>
      match lstrip l with
      | EmptyString => leading_empty_lines src'
      | String _ _ => src
      end
  | [] => []
  end.

(** A cell of one line; a comment line counts as a line. *)
Definition single_line (src : list string) : bool :=
  bool_decide (length (leading_empty_lines src) = 1).

Definition parse_cell (src : list string) : list stmt :=
  let ls := prod_map id (classify (single_line src)) <$> logical_lines src in
  parse_lines (S (length ls)) ls.

(** The notebook as a program: the statements of its code cells. *)
Definition program : list (list stmt) := parse_cell <$> code_cells.

(** The heads of a statement, the header of a block before its body. *)
Fixpoint heads (st : stmt) : list head :=
  match st with
  | Simple h => [h]
  | Block h body =>
      h :: (fix go (l : list stmt) : list head :=
              match l with
              | [] => []
              | st' :: l' => heads st' ++ go l'
              end) body
  end.

Definition heads_of (l : list stmt) : list head := l ≫= heads.


(** ** Execution *)

(** Run-time values: numbers, strings, and references to objects of
    external modules, named by their dotted path. *)
Inductive value :=
  | VInt (n : nat)
  | VStr (s : string)
  | VExt (path : string).

(** One call of the external script by [%run]: the value whose text
    names the script, the arguments the line gives after it, and the
    process environment the script starts with. *)
Record invocation := Invocation {
  script : value;
  argv : list string;
  env_at : gmap string string }.

(** What [%run] meets outside the notebook.  IPython pastes the text
    of the value into the line, splits the line into words and looks
    for a file named by the first word ([get_py_filename]); when there
    is none, [%run] raises.  Otherwise it runs the script through
    [safe_execfile], which catches whatever the script raises, shows
    the traceback and returns; the namespace the script ran in is what
    the script leaves behind.  The script is a Python file, as the
    file of an imported module is; a file of IPython input ([.ipy],
    [.ipynb]) would run another way and is outside this model. *)
Inductive outcome :=
  | NoFile
  | Ran (raised : option string) (globals : gmap string value).

(** What a cell can touch: [os.environ], the interactive namespace, the
    items of external objects ([obj[key] = v]), the text the cells
    themselves write, the commands given to the system shell, the
    invocations of the script made so far, and the tracebacks that
    [%run] has shown. *)
Record state := State {
  environ : gmap string string;
  user_ns : gmap string value;
  ext_items : gmap (string * string) value;
  stdout : list string;
  shell_cmds : list string;
  runs : list invocation;
  tracebacks : list string }.

(** The errors that end a cell.  An exception of the script is none of
    them: it never leaves [%run]. *)
Inductive error :=
  | EvalError (e : expr)          (* unbound name, or an operand of the wrong type *)
  | FileNotFound (target : string)   (* raised by %run itself *)
  | SyntaxError (h : head)        (* the cell does not compile *)
  | NotModelled (h : head).       (* a statement outside the fragment the cells use *)

Inductive result :=
  | Done (s : state)
  | Fail (e : error) (s : state).

Definition state_of (r : result) : state :=
  match r with Done s | Fail _ s => s end.

Definition set_environ (var value : string) (s : state) : state :=
  State (<[var:=value]> (environ s)) (user_ns s) (ext_items s)
        (stdout s) (shell_cmds s) (runs s) (tracebacks s).

Definition bind (name : string) (v : value) (s : state) : state :=
  State (environ s) (<[name:=v]> (user_ns s)) (ext_items s)
        (stdout s) (shell_cmds s) (runs s) (tracebacks s).

Definition set_item (obj key : string) (v : value) (s : state) : state :=
  State (environ s) (user_ns s) (<[(obj, key):=v]> (ext_items s))
        (stdout s) (shell_cmds s) (runs s) (tracebacks s).

Definition write (line : string) (s : state) : state :=
  State (environ s) (user_ns s) (ext_items s)
        (stdout s ++ [line]) (shell_cmds s) (runs s) (tracebacks s).

Definition system (cmd : string) (s : state) : state :=
  State (environ s) (user_ns s) (ext_items s)
        (stdout s) (shell_cmds s ++ [cmd]) (runs s) (tracebacks s).

Definition record_run (inv : invocation) (s : state) : state :=
  State (environ s) (user_ns s) (ext_items s)
        (stdout s) (shell_cmds s) (runs s ++ [inv]) (tracebacks s).

(** [safe_execfile] shows the traceback of what the script raised. *)
Definition showtraceback (raised : option string) (s : state) : state :=
  State (environ s) (user_ns s) (ext_items s)
        (stdout s) (shell_cmds s) (runs s) (tracebacks s ++ option_list raised).

(** After the script [%run] updates the interactive namespace with the
    namespace the script ran in:

      prog_ns.pop('__name__', None)
      with preserve_keys(self.shell.user_ns, '__file__'):
          self.shell.user_ns.update(prog_ns)

    and puts [__builtins__] back. *)
Definition kept_back : list string := ["__name__"; "__file__"; "__builtins__"].

Definition update_user_ns (globals : gmap string value) (s : state) : state :=
  State (environ s) (foldr delete globals kept_back ∪ user_ns s) (ext_items s)
        (stdout s) (shell_cmds s) (runs s) (tracebacks s).

Definition decimal (n : nat) : string := NilEmpty.string_of_uint (Nat.to_uint n).

Fixpoint dotted (p : string) (attrs : list string) : string :=
  match attrs with
  | [] => p
  | a :: attrs' => dotted (p +:+ "." +:+ a) attrs'
  end.

(** [fmt % v] for the two conversions [%d] and [%s]. *)
Definition format (fmt : string) (v : value) : option string :=
  match v with
  | VInt n => (fun lr => fst lr +:+ decimal n +:+ snd lr) <$> cut_at "%d" fmt
  | VStr t => (fun lr => fst lr +:+ t +:+ snd lr) <$> cut_at "%s" fmt
  | VExt _ => None
  end.

Fixpoint eval (ns : gmap string value) (e : expr) : option value :=
  match e with
  | EStr s => Some (VStr s)
  | EInt n => Some (VInt n)
  | EPath root attrs =>
      match ns !! root, attrs with
      | Some v, [] => Some v
      | Some (VExt p), _ => Some (VExt (dotted p attrs))
      | _, _ => None
      end
  | EFormat fmt arg =>
      match eval ns fmt, eval ns arg with
      | Some (VStr f), Some v => VStr <$> format f v
      | _, _ => None
      end
  | ERange _ | EOther _ => None
  end.

(** The number of rounds of [for _ in range(n)]. *)
Definition eval_range (ns : gmap string value) (e : expr) : option nat :=
  match e with
  | ERange stop => match eval ns stop with Some (VInt n) => Some n | _ => None end
  | _ => None
  end.

(** Before a magic runs, [var_expand] formats its line with the
    namespace: [$name] is replaced by the text of the value of [name].
    The words of the cells hold no other expansion: a word is
    [literal], or the script word is [$] and a name. *)
Definition literal (w : string) : bool :=
  negb (is_infix "$" w) && negb (is_infix "{" w).

Definition is_name (w : string) : bool :=
  match w with
  | String a _ => negb (is_digit a) && all_chars is_ident_char w
  | EmptyString => false
  end.

Definition expandable (target : string) (args : list string) : bool :=
  (literal target || (starts_with "$" target && is_name (drop_chars 1 target)))
  && forallb literal args.

(** [expand ns target] is the value whose text stands for the script
    word: the value of [name] for [$name], the word itself otherwise.
    When [name] is unbound the formatting fails and [var_expand] leaves
    the line as it is written ([None]). *)
Definition expand (ns : gmap string value) (target : string) : option value :=
  if starts_with "$" target then ns !! drop_chars 1 target else Some (VStr target).

(** A name bound in the namespace shadows the magic of that name
    ([is_shadowed]); [AutoMagicChecker] then leaves the line to
    Python. *)
Definition is_shadowed (name : string) (ns : gmap string value) : bool :=
  bool_decide (is_Some (ns !! name)).

(** Whether IPython takes a [run] line for the magic. *)
Definition automagic (written : spelling) (ns : gmap string value) : bool :=
  match written with
  | Percent => true
  | Bare single_line => single_line && negb (is_shadowed "run" ns)
  end.

(** The lines of a cell that stay Python whatever is bound. *)
Definition left_to_python (h : head) : bool :=
  match h with
  | HRun (Bare false) _ _ => true
  | _ => false
  end.

(** The first such line of a cell, if there is one. *)
Definition uncompiled (l : list stmt) : option head :=
  filter (fun h => left_to_python h = true) (heads_of l) !! 0.

(** [import a.b.c] binds the name [a]. *)
Definition top_package (module : string) : string :=
  match split_dots EmptyString module with
  | root :: _ => root
  | [] => module
  end.

Fixpoint for_range (body : nat -> state -> result) (count start : nat) (s : state)
  : result :=
  match count with
  | 0 => Done s
  | S count' =>
      match body start s with
      | Done s' => for_range body count' (S start) s'
      | Fail e s' => Fail e s'
      end
  end.

Section Execution.

(** The script and the file system are external.  For the value of
    the script word, the arguments and the environment, [bench] says
    what [%run] meets: no file, or a script that runs, raises or not,
    and leaves its globals.  What the text of the value is, into how
    many words it falls and which file the first of them names is
    decided there; the arguments of an invocation are the ones the
    line gives. *)
Variable bench : invocation -> outcome.

(** A [run] line read as Python.  After the name [run] Python meets the
    character [$], which starts no token: a syntax error. *)
Definition as_python (h : head) (s : state) : result :=
  match h with
  | HRun _ target _ =>
      if starts_with "$" target then Fail (SyntaxError h) s else Fail (NotModelled h) s
  | _ => Fail (NotModelled h) s
  end.

Definition exec_head (h : head) (s : state) : result :=
  match h with
  | HEnv var value =>
      Done (write ("env: " +:+ var +:+ "=" +:+ value) (set_environ var value s))
  | HRun written target args =>
      if negb (automagic written (user_ns s)) then as_python h s
      else if negb (expandable target args) then Fail (NotModelled h) s
      else
        match expand (user_ns s) target with
        | Some v =>
            let inv := Invocation v args (environ s) in
            match bench inv with
            | Ran raised globals =>
                Done (update_user_ns globals (showtraceback raised (record_run inv s)))
            | NoFile => Fail (FileNotFound target) s
            end
        | None =>
            (* the word stays [$name], and IPython looks for a file of
               that name; the model takes it that there is none *)
            Fail (FileNotFound target) s
        end
  | HShell cmd => Done (system cmd s)
  | HImport module =>
      Done (bind (top_package module) (VExt (top_package module)) s)
  | HFromImport module name =>
      Done (bind name (VExt (module +:+ "." +:+ name)) s)
  | HAssign x e =>
      match eval (user_ns s) e with
      | Some v => Done (bind x v s)
      | None => Fail (EvalError e) s
      end
  | HSetItem obj key e =>
      match user_ns s !! obj, eval (user_ns s) key, eval (user_ns s) e with
      | Some (VExt p), Some (VStr k), Some v => Done (set_item p k v s)
      | Some (VExt _), Some (VStr _), None => Fail (EvalError e) s
      | Some (VExt _), _, _ => Fail (EvalError key) s
      | _, _, _ => Fail (EvalError (EPath obj [])) s
      end
  | HPrint e =>
      match eval (user_ns s) e with
      | Some (VStr t) => Done (write t s)
      | Some (VInt n) => Done (write (decimal n) s)
      | _ => Fail (EvalError e) s
      end
  | HMagic _ _ | HFor _ _ | HKeyword _ _ | HExpr _ => Fail (NotModelled h) s
  end.

Fixpoint exec_stmt (st : stmt) (s : state) : result :=
  match st with
  | Simple h => exec_head h s
  | Block (HFor x it) body =>
      match eval_range (user_ns s) it with
      | Some n =>
          for_range
            (fun i s0 =>
               (fix exec_body (l : list stmt) (s1 : state) : result :=
                  match l with
                  | [] => Done s1
                  | st' :: l' =>
                      match exec_stmt st' s1 with
                      | Done s2 => exec_body l' s2
                      | Fail e s2 => Fail e s2
                      end
                  end) body (bind x (VInt i) s0))
            n 0 s
      | None => Fail (EvalError it) s
      end
  | Block h _ => Fail (NotModelled h) s
  end.

(** A statement list runs in order and stops at the first error. *)
Fixpoint exec_seq (l : list stmt) (s : state) : result :=
  match l with
  | [] => Done s
  | st :: l' =>
      match exec_stmt st s with
      | Done s' => exec_seq l' s'
      | Fail e s' => Fail e s'
      end
  end.

(** A cell is compiled as a whole before any of it runs: when one of
    its lines is no Python, the cell fails and none of its statements
    is executed. *)
Definition exec_stmts (l : list stmt) (s : state) : result :=
  match uncompiled l with
  | Some h => as_python h s
  | None => exec_seq l s
  end.

(** The cells run top to bottom; an error ends the run. *)
Fixpoint run_cells (cs : list (list stmt)) (s : state) : result :=
  match cs with
  | [] => Done s
  | c :: cs' =>
      match exec_stmts c s with
      | Done s' => run_cells cs' s'
      | Fail e s' => Fail e s'
      end
  end.

Definition run_notebook : state -> result := run_cells program.

End Execution.


(** ** Reading the program *)

(** Every statement of every code cell, in program order. *)
Definition all_heads : list head := program ≫= heads_of.

(** The text of every statement, in the same order. *)
Definition code_lines : list string := code_cells ≫= (fun src => snd <$> logical_lines src).

(** Every line of code with the statement it is read as. *)
Definition code_statements : list (string * head) :=
  code_cells ≫= (fun src => (fun l => (l.2, classify (single_line src) l.2)) <$> logical_lines src).

(** The statements of the cells that compile: the ones a run can
    reach. *)
Definition live_heads (cs : list (list stmt)) : list head :=
  filter (fun c => uncompiled c = None) cs ≫= heads_of.

Definition env_settings (hs : list head) : list (string * string) :=
  omap (fun h => match h with HEnv var value => Some (var, value) | _ => None end) hs.

Definition run_argvs (hs : list head) : list (list string) :=
  omap (fun h => match h with HRun _ _ args => Some args | _ => None end) hs.

Definition imported (hs : list head) : list string :=
  omap (fun h => match h with
                 | HImport m => Some m
                 | HFromImport m n => Some (m +:+ "." +:+ n)
                 | _ => None
                 end) hs.

Definition shell_commands (hs : list head) : list string :=
  omap (fun h => match h with HShell c => Some c | _ => None end) hs.

Definition item_assignments (hs : list head) : list (string * expr * expr) :=
  omap (fun h => match h with HSetItem o k e => Some (o, k, e) | _ => None end) hs.

(** *** Command lines *)

Definition is_flag (w : string) : bool := starts_with "-" w.

(** The words up to the next flag. *)
Fixpoint leading_values (ws : list string) : list string :=
  match ws with
  | w :: ws' => if is_flag w then [] else w :: leading_values ws'
  | [] => []
  end.

(** The flags of a command line, each with the values that follow it. *)
Fixpoint options (ws : list string) : list (string * list string) :=
  match ws with
  | w :: ws' => if is_flag w then (w, leading_values ws') :: options ws' else options ws'
  | [] => []
  end.

(** The words before the first flag: the subcommand. *)
Definition positionals (ws : list string) : list string := leading_values ws.

Definition option_values (flag : string) (ws : list string) : list (list string) :=
  snd <$> filter (fun o => o.1 = flag) (options ws).

(** The command lines that call the subcommand [run]. *)
Definition run_subcommands : list (list string) :=
  filter (fun a => positionals a = ["run"]) (run_argvs all_heads).

(** The seven environment settings, in the order the cells make them. *)
Definition notebook_env : list (string * string) :=
  [("DEVITO_OPENMP", "1"); ("OMP_NUM_THREADS", "8");
   ("KMP_HW_SUBSET", "8c,1t"); ("KMP_AFFINITY", "compact");
   ("DEVITO_ARCH", "intel"); ("DEVITO_AUTOTUNING", "aggressive");
   ("DEVITO_BACKEND", "yask")].

(** The seven flags of the benchmark script, each with the number of
    values it is given. *)
Definition benchmark_flags : list (string * nat) :=
  [("-P", 1); ("-so", 1); ("-d", 3); ("--tn", 1); ("-dse", 1); ("-dle", 1); ("-a", 0)].

Definition flags_used : list string :=
  remove_dups (run_argvs all_heads ≫= (fun a => fst <$> options a)).

(** *** Kinds of statement *)

Inductive kind :=
  | KImport | KEnv | KInvocation | KShell | KConfig
  | KBinding | KLoop | KPrint | KOther.

Definition kind_of (h : head) : kind :=
  match h with
  | HImport _ | HFromImport _ _ => KImport
  | HEnv _ _ => KEnv
  | HRun _ _ _ => KInvocation
  | HShell _ => KShell
  | HSetItem _ _ _ => KConfig
  | HAssign _ _ => KBinding
  | HFor _ _ => KLoop
  | HPrint _ => KPrint
  | HMagic _ _ | HKeyword _ _ | HExpr _ => KOther
  end.

(** The five kinds the specification lists. *)
Definition listed_kinds : list kind := [KImport; KEnv; KInvocation; KShell; KConfig].

(** The kinds the cells use. *)
Definition used_kinds : list kind := listed_kinds ++ [KBinding; KLoop; KPrint].

Fixpoint plain (e : expr) : bool :=
  match e with
  | EStr _ | EInt _ | EPath _ _ => true
  | EFormat f a => plain f && plain a
  | ERange stop => plain stop
  | EOther _ => false
  end.

(** A statement that only names, formats and counts: no keyword
    statement ([def], [class], [try], [if], ...), no unknown magic, no
    expression beyond literals, dotted names, [%] and [range]. *)
Definition elementary (h : head) : bool :=
  match h with
  | HAssign _ e | HPrint e | HFor _ e => plain e
  | HSetItem _ k e => plain k && plain e
  | HEnv _ _ | HRun _ _ _ | HShell _ | HImport _ | HFromImport _ _ => true
  | HMagic _ _ | HKeyword _ _ | HExpr _ => false
  end.

(** *** Words looked for in the text of the cells *)

Definition mentions (ws : list string) (l : string) : bool :=
  existsb (fun w => is_infix w l) ws.

Definition has_word (w l : string) : bool := bool_decide (w ∈ String.words l).

Inductive engine := DSE | DLE | AutoTuner | YASK.

Definition engine_words (e : engine) : list string :=
  match e with
  | DSE => ["dse"; "DSE"; "Dse"]
  | DLE => ["dle"; "DLE"; "Dle"]
  | AutoTuner => ["tuning"; "TUNING"; "Tuning"; "autotun"; "tuner"]
  | YASK => ["yask"; "YASK"; "Yask"]
  end.

Definition engine_flag (e : engine) : option string :=
  match e with
  | DSE => Some "-dse"
  | DLE => Some "-dle"
  | AutoTuner => Some "-a"
  | YASK => None
  end.

Definition engine_variable (e : engine) : option (string * string) :=
  match e with
  | AutoTuner => Some ("DEVITO_AUTOTUNING", "aggressive")
  | YASK => Some ("DEVITO_BACKEND", "yask")
  | DSE | DLE => None
  end.

(** A line that refers to an engine, by name or by its flag. *)
Definition refers_to (e : engine) (l : string) : bool :=
  mentions (engine_words e) l || from_option (fun f => has_word f l) false (engine_flag e).

(** A statement that reaches an engine through its flag or its variable. *)
Definition through_knob (e : engine) (h : head) : bool :=
  match h with
  | HRun _ _ args => from_option (fun f => bool_decide (f ∈ args)) false (engine_flag e)
  | HEnv var value => bool_decide (engine_variable e = Some (var, value))
  | _ => false
  end.

(** Names of thread, process and synchronisation facilities. *)
Definition concurrency_words : list string :=
  ["thread"; "Thread"; "THREAD"; "process"; "Process"; "fork"; "spawn"; "Popen";
   "Pool"; "Lock"; "Semaphore"; "Barrier"; "Event"; "Queue"; "join"; "async";
   "await"; "concurrent"; "mpirun"; "mpi4py"; "MPI"; "numactl"; "taskset"; "&"].

(** The variables that ask for threads and for their placement. *)
Definition parallelism_variables : list string :=
  ["DEVITO_OPENMP"; "OMP_NUM_THREADS"; "KMP_HW_SUBSET"; "KMP_AFFINITY"].

(** Words that start failure handling or a branch. *)
Definition handling_keywords : list string :=
  ["try"; "except"; "finally"; "raise"; "assert"; "if"; "elif"; "else"; "while"; "with"].

(** Names through which the outcome of a command can be read. *)
Definition outcome_words : list string :=
  ["_exit_code"; "returncode"; "exc_info"; "errno"; "status"; "$?"; "Error"; "Exception"].

(** *** The thread-pinning cell and the text before it *)

Definition narrative_before_pinning : list string :=
  match cells !! 13 with Some (Markdown src) => src | _ => [] end.

Definition pinning_source : list string :=
  match cells !! 14 with Some (Code src) => src | _ => [] end.

Definition pinning_cell : list stmt := parse_cell pinning_source.

Definition pinning_argv : list string :=
  ["run"; "-P"; "acoustic"; "-so"; "8"; "-d"; "256"; "256"; "256"; "--tn"; "50"].

(** *** Environments *)

(** The environment [e] after the settings [l], made from left to right. *)
Definition apply_settings (l : list (string * string)) (e : gmap string string)
  : gmap string string :=
  foldl (fun m kv => <[kv.1:=kv.2]> m) e l.

(** The part of the trace a run adds to the invocations of [s]. *)
Definition new_runs (s : state) (r : result) : list invocation :=
  drop (length (runs s)) (runs (state_of r)).

(** The path of the script, as the first cell binds it. *)
Definition benchmark_path : value := VExt "examples.seismic.benchmark.__file__".

(** How many of the seven settings have been made before each of the
    ten command lines. *)
Definition settings_in_force : list nat := [0; 0; 5; 5; 5; 5; 5; 5; 6; 7].

(** The ten command lines the cells write, the loop unrolled. *)
Definition command_lines : list (list string) :=
  [ ["--help"];
    ["run"; "-P"; "acoustic"];
    pinning_argv; pinning_argv; pinning_argv;
    pinning_argv ++ ["-dse"; "advanced"];
    ["run"; "-P"; "acoustic"; "-so"; "8"; "-d"; "512"; "512"; "512"; "--tn"; "50";
     "-dse"; "advanced"];
    ["run"; "-P"; "acoustic"; "-so"; "8"; "-d"; "512"; "512"; "512"; "--tn"; "50";
     "-dse"; "advanced"; "-dle"; "advanced"];
    ["run"; "-P"; "acoustic"; "-so"; "8"; "-d"; "512"; "512"; "512"; "--tn"; "50";
     "-dse"; "advanced"; "-dle"; "advanced"; "-a"];
    ["run"; "-P"; "acoustic"; "-so"; "8"; "-d"; "512"; "512"; "512"; "--tn"; "50";
     "-dse"; "advanced"] ].

(** The trace the cells were written to add, for the script [v] and
    the environment [e] a run starts in: ten invocations. *)
Definition expected_runs (v : value) (e : gmap string string) : list invocation :=
  zip_with (fun args n => Invocation v args (apply_settings (take n notebook_env) e))
           command_lines settings_in_force.

(** The cells that do not compile are the last two, so a run gets no
    further than the eighth invocation. *)
Definition reached_runs (v : value) (e : gmap string string) : list invocation :=
  take 8 (expected_runs v e).

(** Oracles for examples: the script is found, returns and leaves no
    global; the script is found and raises each time; no script file
    is found; the script leaves a global named [run]. *)
Definition bench_ok : invocation -> outcome := fun _ => Ran None ∅.

Definition bench_raises : invocation -> outcome := fun _ => Ran (Some "RuntimeError") ∅.



Definition empty_state : state := State ∅ ∅ ∅ [] [] [] [].


(** *** Predicates on command lines *)

(** Every flag of the command line is one of the seven, with the
    number of values the table gives. *)
Definition known_flags (a : list string) : bool :=
  forallb (fun o => bool_decide ((o.1, length o.2) ∈ benchmark_flags)) (options a).

(** A command line is [--help] alone, or the subcommand [run]
    followed by known flags. *)
Definition well_formed_command (a : list string) : bool :=
  bool_decide (a = ["--help"])
  || (bool_decide (positionals a = ["run"]) && known_flags a).

(** The preset is [acoustic]; a spatial order, an end time and a
    symbolic-optimisation level, where given, are [8], [50] and
    [advanced]. *)
Definition acoustic_presets (a : list string) : bool :=
  bool_decide (option_values "-P" a = [["acoustic"]])
  && forallb (fun v => bool_decide (v = ["8"])) (option_values "-so" a)
  && forallb (fun v => bool_decide (v = ["50"])) (option_values "--tn" a)
  && forallb (fun v => bool_decide (v = ["advanced"])) (option_values "-dse" a).

(** Words through which a cell could reach the process environment. *)
Definition environment_words : list string :=
  ["env"; "ENV"; "Env"; "export"; "getenv"].

(** The text of an [%env] line. *)
Definition env_line (kv : string * string) : string :=
  "%env " +:+ kv.1 +:+ "=" +:+ kv.2.

(** The settings [l] are in force in the environment [e]. *)
Definition in_force (l : list (string * string)) (e : gmap string string) : Prop :=
  Forall (fun kv => e !! kv.1 = Some kv.2) l.

(** An invocation that reaches an engine: its command line carries the
    flag of the engine, and its environment the variable. *)
Definition exercises (e : engine) (inv : invocation) : bool :=
  from_option (fun f => bool_decide (f ∈ argv inv)) true (engine_flag e)
  && from_option (fun kv => bool_decide (env_at inv !! kv.1 = Some kv.2)) true
       (engine_variable e).

(** *** Oracles *)

(** The error an invocation shows, if the script raises. *)
Definition raised_by (bench : invocation -> outcome) (inv : invocation) : option string :=
  match bench inv with
  | Ran raised _ => raised
  | NoFile => None
  end.

(** The oracle [bench] with every script error taken away. *)
Definition quiet (bench : invocation -> outcome) : invocation -> outcome :=
  fun inv =>
    match bench inv with
    | Ran _ globals => Ran None globals
    | NoFile => NoFile
    end.

(** The script leaves no global of the name [x]. *)
Definition leaves_unbound (bench : invocation -> outcome) (x : string) : Prop :=
  forall inv raised globals, bench inv = Ran raised globals -> globals !! x = None.

(** *** Parts of a result *)

(** The tracebacks a run adds to the ones of [s]. *)
Definition new_tracebacks (s : state) (r : result) : list string :=
  drop (length (tracebacks s)) (tracebacks (state_of r)).

Definition set_tracebacks (t : list string) (s : state) : state :=
  State (environ s) (user_ns s) (ext_items s) (stdout s) (shell_cmds s) (runs s) t.

(** The result [r] with the tracebacks [t] in place of its own. *)
Definition with_tracebacks (t : list string) (r : result) : result :=
  match r with
  | Done s => Done (set_tracebacks t s)
  | Fail e s => Fail e (set_tracebacks t s)
  end.

(** *** Readings of the claims that the cells do not satisfy as worded *)

(** Every statement is of one of the five listed kinds. *)
Definition only_listed_kinds : Prop :=
  forall h, h ∈ all_heads -> kind_of h ∈ listed_kinds.


(** No cell starts a process. *)
Definition starts_no_process : Prop :=
  forall bench s, shell_cmds (state_of (run_notebook bench s)) = shell_cmds s.

(** An error that the script raises in an invocation ends the run
    there. *)
Definition errors_propagate_unhandled : Prop :=
  forall bench s inv m,
    inv ∈ new_runs s (run_notebook bench s) ->
    raised_by bench inv = Some m ->
    exists e s', run_notebook bench s = Fail e s' /\ last (runs s') = Some inv.

(** *** States used as examples *)

(** The state in which a run from an empty state ends, when the script
    is found and returns. *)
Definition final_state : state := state_of (run_notebook bench_ok empty_state).

(** An empty state in which the path of the script is bound. *)
Definition ready_state : state := bind "benchmark" benchmark_path empty_state.

(** A state in which the seven settings hold and nothing else. *)
Definition configured_state : state :=
  State (apply_settings notebook_env ∅) ∅ ∅ [] [] [] [].

#[global] Instance expr_eq_dec : EqDecision expr.
Proof. solve_decision. Defined.

#[global] Instance spelling_eq_dec : EqDecision spelling.
Proof. solve_decision. Defined.

#[global] Instance head_eq_dec : EqDecision head.
Proof. solve_decision. Defined.

#[global] Instance kind_eq_dec : EqDecision kind.
Proof. solve_decision. Defined.

(** The lines of the cells that refer to an engine, each with the
    statement it is read as. *)
Definition uses (e : engine) : list (string * head) :=
  filter (fun lh => refers_to e lh.1 = true) code_statements.

(** The last line of the thread-pinning cell: the benchmark call. *)
Definition pinning_line : string := from_option strip EmptyString (last pinning_source).

(** The three settings of the thread-pinning cell. *)
Definition pinning_settings : list (string * string) := take 3 (drop 2 notebook_env).

(** The state in which the thread-pinning cell, run from
    [ready_state], ends. *)
Definition pinned_state : state := state_of (exec_stmts bench_ok pinning_cell ready_state).

(** The code cells after the first one. *)
Definition later_cells : list (list stmt) := drop 1 program.

(** The invocation the thread-pinning cell makes, for the script [v]
    and the environment [e] the cell starts in. *)
Definition pinning_invocation (v : value) (e : gmap string string) : invocation :=
  Invocation v pinning_argv (apply_settings pinning_settings e).

(** The two cells that do not compile, by their [run] line. *)
Definition autotuning_line : head :=
  HRun (Bare false) "$benchmark"
    ["run"; "-P"; "acoustic"; "-so"; "8"; "-d"; "512"; "512"; "512"; "--tn"; "50";
     "-dse"; "advanced"; "-dle"; "advanced"; "-a"].

Definition yask_line : head :=
  HRun (Bare false) "$benchmark"
    ["run"; "-P"; "acoustic"; "-so"; "8"; "-d"; "512"; "512"; "512"; "--tn"; "50";
     "-dse"; "advanced"].

(** *** The course of a run *)


(** The text a run writes, at most. *)
Definition notebook_output : list string :=
  ["env: DEVITO_OPENMP=1"; "env: OMP_NUM_THREADS=8"; "env: KMP_HW_SUBSET=8c,1t";
   "env: KMP_AFFINITY=compact"; "env: DEVITO_ARCH=intel"; "Run 0"; "Run 1"; "Run 2"].

(** What the notebook decides of an invocation: the command line and
    the environment. *)
Definition trace (l : list invocation) : list (list string * gmap string string) :=
  (fun inv => (argv inv, env_at inv)) <$> l.

(** The trace of a run that gets as far as a run can get, from the
    environment [e]: eight invocations. *)
Definition reached_trace (e : gmap string string)
  : list (list string * gmap string string) :=
  take 8 (zip_with (fun args n => (args, apply_settings (take n notebook_env) e))
            command_lines settings_in_force).

(** The [run] lines of the cells, and for each of the ten command
    lines the line that gives it. *)
Definition run_lines : list head :=
  filter (fun h => kind_of h = KInvocation) all_heads.

Definition line_of : list nat := [0; 1; 2; 2; 2; 3; 4; 5; 6; 7].

(** The item that the thread-pinning cell assigns. *)
Definition compiler_item : string * string := ("devito.configuration", "compiler").

(** [stopped s k e s']: a run from [s] has stopped in [s'] with the
    error [e], at the [run] line of command line [k], after [k]
    invocations.  Before the third invocation nothing but the
    namespace has changed; from then on the five settings of the
    compiling cells are made, [lscpu] has run, the configuration is
    assigned, and the five echoes of [%env] and one line per round of
    the loop are written. *)
Definition stopped (s : state) (k : nat) (e : error) (s' : state) : Prop :=
  k <= 8
  /\ (exists new, runs s' = runs s ++ new /\ trace new = take k (reached_trace (environ s)))
  /\ environ s' = apply_settings (take (if k <? 2 then 0 else 5) notebook_env) (environ s)
  /\ stdout s' = stdout s ++ take (if k <? 2 then 0 else k + 4) notebook_output
  /\ shell_cmds s' = shell_cmds s ++ (if k <? 2 then [] else ["lscpu"])
  /\ ext_items s'
     = (if k <? 2 then ext_items s else <[compiler_item := VStr "intel"]> (ext_items s))
  /\ exists h,
       line_of !! k ≫= (run_lines !!.) = Some h
       /\ (e = FileNotFound "$benchmark" /\ k < 8 \/ e = SyntaxError h /\ 5 <= k).


(** * Properties *)

(** ** The program the cells parse to *)

Lemma program_ast :
  program =
  [ [ Simple (HImport "examples.seismic.benchmark");
      Simple (HAssign "benchmark" (EPath "examples" ["seismic"; "benchmark"; "__file__"])) ];
    [ Simple (HRun Percent "$benchmark" ["--help"]) ];
    [ Simple (HRun Percent "$benchmark" ["run"; "-P"; "acoustic"]) ];
    [ Simple (HEnv "DEVITO_OPENMP" "1") ];
    [ Simple (HShell "lscpu") ];
    [ Simple (HEnv "OMP_NUM_THREADS" "8") ];
    [ Simple (HEnv "KMP_HW_SUBSET" "8c,1t");
      Simple (HEnv "KMP_AFFINITY" "compact");
      Simple (HEnv "DEVITO_ARCH" "intel");
      Simple (HFromImport "devito" "configuration");
      Simple (HSetItem "configuration" (EStr "compiler") (EStr "intel"));
      Block (HFor "i" (ERange (EInt 3)))
        [ Simple (HPrint (EFormat (EStr "Run %d") (EPath "i" [])));
          Simple (HRun Percent "$benchmark" pinning_argv) ] ];
    [ Simple (HRun (Bare true) "$benchmark" (pinning_argv ++ ["-dse"; "advanced"])) ];
    [ Simple (HRun (Bare true) "$benchmark"
        ["run"; "-P"; "acoustic"; "-so"; "8"; "-d"; "512"; "512"; "512"; "--tn"; "50";
         "-dse"; "advanced"]) ];
    [ Simple (HRun (Bare true) "$benchmark"
        ["run"; "-P"; "acoustic"; "-so"; "8"; "-d"; "512"; "512"; "512"; "--tn"; "50";
         "-dse"; "advanced"; "-dle"; "advanced"]) ];
    [ Simple (HEnv "DEVITO_AUTOTUNING" "aggressive"); Simple autotuning_line ];
    [ Simple (HEnv "DEVITO_BACKEND" "yask"); Simple yask_line ] ].
Proof. vm_compute. reflexivity. Qed.

(** Each statement is the reading of one line of text. *)
Lemma all_heads_classified : all_heads = code_statements.*2.
Proof. vm_compute. reflexivity. Qed.

Lemma code_lines_statements : code_lines = code_statements.*1.
Proof. vm_compute. reflexivity. Qed.

Lemma pinning_cell_in_program : program !! 6 = Some pinning_cell.
Proof. vm_compute. reflexivity. Qed.

Lemma notebook_env_NoDup : NoDup notebook_env.*1.
Proof. apply (bool_decide_unpack _). vm_compute. exact I. Qed.

Lemma run_notebook_unfold bench s : run_notebook bench s = run_cells bench program s.
Proof. reflexivity. Qed.

Lemma all_heads_unfold : all_heads = program ≫= heads_of.
Proof. reflexivity. Qed.

(** ** Induction over statements *)

Lemma stmt_nested_ind (P : stmt -> Prop) :
  (forall h, P (Simple h)) ->
  (forall h body, Forall P body -> P (Block h body)) ->
  forall st, P st.
Proof.
  intros Hsimple Hblock. fix IH 1. intros [h | h body].
  - apply Hsimple.
  - apply Hblock. induction body as [| st body IHbody]; constructor.
    + apply IH.
    + exact IHbody.
Qed.

Lemma heads_block h body : heads (Block h body) = h :: heads_of body.
Proof. reflexivity. Qed.

Lemma heads_of_cons st l : heads_of (st :: l) = heads st ++ heads_of l.
Proof. reflexivity. Qed.

Lemma exec_for bench x it body s :
  exec_stmt bench (Block (HFor x it) body) s =
  match eval_range (user_ns s) it with
  | Some n => for_range (fun i s0 => exec_seq bench body (bind x (VInt i) s0)) n 0 s
  | None => Fail (EvalError it) s
  end.
Proof. reflexivity. Qed.

Lemma exec_block_other bench h body s :
  (forall x it, h <> HFor x it) ->
  exec_stmt bench (Block h body) s = Fail (NotModelled h) s.
Proof. intros Hh. destruct h; try reflexivity. destruct (Hh var iter eq_refl). Qed.

(** A line left to Python ends the cell where it started. *)
Lemma as_python_fails h s : exists e, as_python h s = Fail e s.
Proof.
  unfold as_python. destruct h as [| written target args | | | | | | | | | |];
    try (eexists; reflexivity).
  destruct (starts_with "$" target); eexists; reflexivity.
Qed.

Lemma exec_stmts_compiled bench l s :
  uncompiled l = None -> exec_stmts bench l s = exec_seq bench l s.
Proof. unfold exec_stmts. by intros ->. Qed.

Lemma exec_stmts_uncompiled bench l s h :
  uncompiled l = Some h -> exec_stmts bench l s = as_python h s.
Proof. unfold exec_stmts. by intros ->. Qed.

Lemma live_heads_cons c cs :
  live_heads (c :: cs) =
  match uncompiled c with
  | None => heads_of c ++ live_heads cs
  | Some _ => live_heads cs
  end.
Proof.
  unfold live_heads. rewrite filter_cons.
  destruct (decide (uncompiled c = None)) as [E | E].
  - by rewrite E.
  - by destruct (uncompiled c).
Qed.

(** ** Properties every execution has

    [P s r] relates the state a piece of code starts in to its result.
    When [P] holds of doing nothing, composes along a sequence, holds
    of every single statement allowed by [Q] and of binding the
    variable of a loop allowed by [Q], and holds of stopping where one
    is, then it holds of
    every statement and cell whose statements [Q] allows, and of every
    list of cells whose compiling cells have only such statements. *)
Section Invariants.

Variable bench : invocation -> outcome.
Variable Q : head -> Prop.
Variable P : state -> result -> Prop.

Hypothesis P_refl : forall s, P s (Done s).
Hypothesis P_trans : forall s s1 r, P s (Done s1) -> P s1 r -> P s r.
Hypothesis P_head : forall h s, Q h -> P s (exec_head bench h s).
Hypothesis P_bind : forall x it v s, Q (HFor x it) -> P s (Done (bind x v s)).
Hypothesis P_stuck : forall e s, P s (Fail e s).

Lemma for_range_sound body :
  (forall i s, P s (body i s)) ->
  forall n k s, P s (for_range body n k s).
Proof.
  intros Hbody n. induction n as [| n IHn]; intros k s; simpl.
  - apply P_refl.
  - specialize (Hbody k s). destruct (body k s) as [s1 | e s1]; [| exact Hbody].
    eapply P_trans; [exact Hbody | apply IHn].
Qed.

Lemma exec_seq_sound_from l :
  Forall (fun st => forall s, P s (exec_stmt bench st s)) l ->
  forall s, P s (exec_seq bench l s).
Proof.
  induction 1 as [| st l Hst _ IHl]; intros s; simpl.
  - apply P_refl.
  - specialize (Hst s). destruct (exec_stmt bench st s) as [s1 | e s1]; [| exact Hst].
    eapply P_trans; [exact Hst | apply IHl].
Qed.

Lemma exec_stmt_sound st :
  Forall Q (heads st) -> forall s, P s (exec_stmt bench st s).
Proof.
  induction st as [h | h body IHbody] using stmt_nested_ind; intros HQ s.
  - apply P_head. by inversion HQ.
  - rewrite heads_block in HQ. apply Forall_cons in HQ as [Qh HQ].
    assert (Hall : Forall (fun st => forall s, P s (exec_stmt bench st s)) body).
    { clear s. induction body as [| st body IH]; constructor.
      - rewrite heads_of_cons in HQ. apply Forall_app in HQ as [HQ _].
        apply Forall_cons in IHbody as [Hst _]. by apply Hst.
      - rewrite heads_of_cons in HQ. apply Forall_app in HQ as [_ HQ].
        apply Forall_cons in IHbody as [_ Hrest]. by apply IH. }
    destruct h; try (rewrite exec_block_other by done; by apply P_stuck).
    rewrite exec_for. destruct (eval_range (user_ns s) iter) as [n |].
    + apply for_range_sound. intros i s0.
      eapply P_trans; [by eapply P_bind | by apply exec_seq_sound_from].
    + by apply P_stuck.
Qed.

Lemma exec_seq_sound l :
  Forall Q (heads_of l) -> forall s, P s (exec_seq bench l s).
Proof.
  intros HQ. apply exec_seq_sound_from.
  induction l as [| st l IHl]; constructor.
  - rewrite heads_of_cons in HQ. apply Forall_app in HQ as [HQ _].
    by apply exec_stmt_sound.
  - rewrite heads_of_cons in HQ. apply Forall_app in HQ as [_ HQ]. by apply IHl.
Qed.

Lemma exec_stmts_sound l :
  (uncompiled l = None -> Forall Q (heads_of l)) ->
  forall s, P s (exec_stmts bench l s).
Proof.
  intros HQ s. unfold exec_stmts. destruct (uncompiled l) as [h |].
  - destruct (as_python_fails h s) as [e ->]. apply P_stuck.
  - by apply exec_seq_sound, HQ.
Qed.

Lemma run_cells_sound cs :
  Forall Q (live_heads cs) -> forall s, P s (run_cells bench cs s).
Proof.
  induction cs as [| c cs IHcs]; intros HQ s; simpl.
  - apply P_refl.
  - rewrite live_heads_cons in HQ.
    assert (Hs : P s (exec_stmts bench c s)).
    { apply exec_stmts_sound. intros E. rewrite E in HQ.
      by apply Forall_app in HQ as [Hc _]. }
    destruct (exec_stmts bench c s) as [s1 | e s1]; [| exact Hs].
    eapply P_trans; [exact Hs |]. apply IHcs.
    destruct (uncompiled c); [done | by apply Forall_app in HQ as [_ Hcs]].
Qed.

End Invariants.

(** ** What single statements do *)

(** A [run] statement ends where it started, or makes one invocation:
    the invocation is recorded, the traceback of what the script
    raised is shown, and the globals of the script are copied. *)
Lemma exec_run_cases bench written target args s :
  (exists e, exec_head bench (HRun written target args) s = Fail e s)
  \/ exists v raised globals,
       expand (user_ns s) target = Some v
       /\ bench (Invocation v args (environ s)) = Ran raised globals
       /\ exec_head bench (HRun written target args) s
          = Done (update_user_ns globals
                    (showtraceback raised (record_run (Invocation v args (environ s)) s))).
Proof.
  cbn [exec_head].
  destruct (negb (automagic written (user_ns s))).
  { left. apply as_python_fails. }
  destruct (negb (expandable target args)); [left; by eexists |].
  destruct (expand (user_ns s) target) as [v |]; [| left; by eexists].
  destruct (bench (Invocation v args (environ s))) as [| raised globals] eqn:Hb;
    [left; by eexists |].
  right. by exists v, raised, globals.
Qed.

Ltac exec_head_cases :=
  simpl;
  repeat match goal with
    | |- context [match ?x with _ => _ end] => destruct x; simpl
    end.

(** ** What executions do to the environment *)

(** A variable that no [%env] statement of a compiling cell names
    keeps its value, whatever the script does. *)
Lemma environ_frame bench cs s v :
  v ∉ (env_settings (live_heads cs)).*1 ->
  environ (state_of (run_cells bench cs s)) !! v = environ s !! v.
Proof.
  intros Hv.
  apply (run_cells_sound bench (fun h => forall x, h <> HEnv v x)
           (fun s r => environ (state_of r) !! v = environ s !! v)).
  - reflexivity.
  - intros s0 s1 r H1 H2. simpl in H1. congruence.
  - intros h s0 Hh.
    destruct h as [| written target args | | | | | | | | | |];
      [| destruct (exec_run_cases bench written target args s0)
           as [[e ->] | (w & raised & globals & _ & _ & ->)]; reflexivity
       | exec_head_cases; reflexivity..].
    simpl. apply lookup_insert_ne. intros ->. by eapply Hh.
  - reflexivity.
  - reflexivity.
  - apply Forall_forall. intros h Hin x ->. apply Hv.
    apply list_elem_of_fmap. exists (v, x). split; [done |].
    apply list_elem_of_omap. by exists (HEnv v x).
Qed.

(** No statement removes a variable from the environment. *)
Lemma environ_grows bench cs s :
  dom (environ s) ⊆ dom (environ (state_of (run_cells bench cs s))).
Proof.
  apply (run_cells_sound bench (fun _ => True)
           (fun s r => dom (environ s) ⊆ dom (environ (state_of r)))).
  - reflexivity.
  - intros s0 s1 r H1 H2. simpl in H1. set_solver.
  - intros h s0 _.
    destruct h as [| written target args | | | | | | | | | |];
      [| destruct (exec_run_cases bench written target args s0)
           as [[e ->] | (w & raised & globals & _ & _ & ->)]; reflexivity
       | exec_head_cases; reflexivity..].
    simpl. rewrite dom_insert. set_solver.
  - reflexivity.
  - reflexivity.
  - by apply Forall_true.
Qed.

(** ** What executions do to the trace *)

(** The invocations of a run are added at the end of the trace; each
    has a command line written in a compiling cell, and sees the
    starting value of every variable that no [%env] statement of a
    compiling cell names. *)
Lemma runs_traced bench cs s :
  exists new,
    runs (state_of (run_cells bench cs s)) = runs s ++ new
    /\ Forall (fun inv =>
         argv inv ∈ run_argvs (live_heads cs)
         /\ forall v, v ∉ (env_settings (live_heads cs)).*1 ->
                      env_at inv !! v = environ s !! v) new.
Proof.
  set (A := run_argvs (live_heads cs)).
  set (V := (env_settings (live_heads cs)).*1).
  apply (run_cells_sound bench
           (fun h => (forall sp t a, h = HRun sp t a -> a ∈ A)
                     /\ forall k x, h = HEnv k x -> k ∈ V)
           (fun s r => (forall v, v ∉ V -> environ (state_of r) !! v = environ s !! v)
              /\ exists new, runs (state_of r) = runs s ++ new
                   /\ Forall (fun inv => argv inv ∈ A
                        /\ forall v, v ∉ V -> env_at inv !! v = environ s !! v) new)).
  - intros s0. split; [done |]. exists []. split; [by rewrite app_nil_r | constructor].
  - intros s0 s1 r [F1 (new1 & E1 & T1)] [F2 (new2 & E2 & T2)]. simpl in F1, E1.
    split; [intros v Hv; by rewrite F2, F1 |].
    exists (new1 ++ new2). split; [by rewrite E2, E1, app_assoc |].
    apply Forall_app. split; [done |].
    eapply Forall_impl; [exact T2 |]. intros inv [Ha He]. split; [done |].
    intros v Hv. by rewrite He, F1.
  - intros h s0 [Hrun Henv].
    destruct h as [k x | written target args | | | | | | | | | |].
    + split.
      * intros v Hv. simpl. apply lookup_insert_ne. intros ->. by eapply Hv, Henv.
      * exists []. split; [by rewrite app_nil_r | constructor].
    + destruct (exec_run_cases bench written target args s0)
        as [[e ->] | (w & raised & globals & _ & _ & ->)].
      * split; [done |]. exists []. split; [by rewrite app_nil_r | constructor].
      * split; [done |]. exists [Invocation w args (environ s0)].
        split; [reflexivity |].
        apply Forall_cons_2; [split; [by eapply Hrun | done] | apply Forall_nil_2].
    + split; [by exec_head_cases |].
      exists []. split; [rewrite app_nil_r; by exec_head_cases | constructor].
    + split; [by exec_head_cases |].
      exists []. split; [rewrite app_nil_r; by exec_head_cases | constructor].
    + split; [by exec_head_cases |].
      exists []. split; [rewrite app_nil_r; by exec_head_cases | constructor].
    + split; [by exec_head_cases |].
      exists []. split; [rewrite app_nil_r; by exec_head_cases | constructor].
    + split; [by exec_head_cases |].
      exists []. split; [rewrite app_nil_r; by exec_head_cases | constructor].
    + split; [by exec_head_cases |].
      exists []. split; [rewrite app_nil_r; by exec_head_cases | constructor].
    + split; [by exec_head_cases |].
      exists []. split; [rewrite app_nil_r; by exec_head_cases | constructor].
    + split; [by exec_head_cases |].
      exists []. split; [rewrite app_nil_r; by exec_head_cases | constructor].
    + split; [by exec_head_cases |].
      exists []. split; [rewrite app_nil_r; by exec_head_cases | constructor].
    + split; [by exec_head_cases |].
      exists []. split; [rewrite app_nil_r; by exec_head_cases | constructor].
  - intros x it v s0 _. split; [done |].
    exists []. split; [by rewrite app_nil_r | constructor].
  - intros e s0. split; [done |].
    exists []. split; [by rewrite app_nil_r | constructor].
  - apply Forall_forall. intros h Hin. split.
    + intros sp t a ->. apply list_elem_of_omap. by exists (HRun sp t a).
    + intros k x ->. apply list_elem_of_fmap. exists (k, x). split; [done |].
      apply list_elem_of_omap. by exists (HEnv k x).
Qed.

Lemma runs_extend bench cs s :
  runs (state_of (run_cells bench cs s)) = runs s ++ new_runs s (run_cells bench cs s).
Proof.
  destruct (runs_traced bench cs s) as (new & E & _). unfold new_runs.
  by rewrite E, drop_app_length.
Qed.

Lemma new_runs_app s r new : runs (state_of r) = runs s ++ new -> new_runs s r = new.
Proof. intros E. unfold new_runs. by rewrite E, drop_app_length. Qed.

Lemma new_runs_traced bench cs s :
  Forall (fun inv =>
            argv inv ∈ run_argvs (live_heads cs)
            /\ forall v, v ∉ (env_settings (live_heads cs)).*1 ->
                         env_at inv !! v = environ s !! v)
         (new_runs s (run_cells bench cs s)).
Proof.
  destruct (runs_traced bench cs s) as (new & E & T).
  by rewrite (new_runs_app _ _ _ E).
Qed.

(** ** The statements as a list *)

(** [evaluate t] replaces the closed term [t] by its value;
    [forall_by_compute] checks a property of a list element by element. *)
Ltac evaluate t :=
  let v := eval vm_compute in t in
  replace t with v by (vm_compute; reflexivity).

Ltac forall_by_compute :=
  repeat (apply Forall_cons_2; [vm_compute; reflexivity |]); apply Forall_nil_2.

Lemma all_heads_ast :
  all_heads =
  [ HImport "examples.seismic.benchmark";
    HAssign "benchmark" (EPath "examples" ["seismic"; "benchmark"; "__file__"]);
    HRun Percent "$benchmark" ["--help"];
    HRun Percent "$benchmark" ["run"; "-P"; "acoustic"];
    HEnv "DEVITO_OPENMP" "1";
    HShell "lscpu";
    HEnv "OMP_NUM_THREADS" "8";
    HEnv "KMP_HW_SUBSET" "8c,1t";
    HEnv "KMP_AFFINITY" "compact";
    HEnv "DEVITO_ARCH" "intel";
    HFromImport "devito" "configuration";
    HSetItem "configuration" (EStr "compiler") (EStr "intel");
    HFor "i" (ERange (EInt 3));
    HPrint (EFormat (EStr "Run %d") (EPath "i" []));
    HRun Percent "$benchmark" pinning_argv;
    HRun (Bare true) "$benchmark" (pinning_argv ++ ["-dse"; "advanced"]);
    HRun (Bare true) "$benchmark"
      ["run"; "-P"; "acoustic"; "-so"; "8"; "-d"; "512"; "512"; "512"; "--tn"; "50";
       "-dse"; "advanced"];
    HRun (Bare true) "$benchmark"
      ["run"; "-P"; "acoustic"; "-so"; "8"; "-d"; "512"; "512"; "512"; "--tn"; "50";
       "-dse"; "advanced"; "-dle"; "advanced"];
    HEnv "DEVITO_AUTOTUNING" "aggressive";
    autotuning_line;
    HEnv "DEVITO_BACKEND" "yask";
    yask_line ].
Proof. vm_compute. reflexivity. Qed.

(** The statements a run can reach are the first eighteen: the last
    two cells do not compile. *)
Lemma live_heads_program : live_heads program = take 18 all_heads.
Proof. vm_compute. reflexivity. Qed.

Lemma live_heads_subseteq cs : live_heads cs ⊆ cs ≫= heads_of.
Proof.
  induction cs as [| c cs IH]; [done |]. rewrite live_heads_cons.
  change ((c :: cs) ≫= heads_of) with (heads_of c ++ (cs ≫= heads_of)).
  intros h Hh. apply elem_of_app. destruct (uncompiled c).
  - right. by apply IH.
  - apply elem_of_app in Hh as [Hh | Hh]; [by left | right; by apply IH].
Qed.

(** No statement is a keyword statement, an unknown magic or a bare
    expression, and every expression is a literal, a dotted name, a
    [%] formatting or a [range]. *)
Lemma all_heads_elementary : Forall (fun h => elementary h = true) all_heads.
Proof. rewrite all_heads_ast. forall_by_compute. Qed.

Lemma env_settings_program : env_settings (program ≫= heads_of) = notebook_env.
Proof. vm_compute. reflexivity. Qed.

Lemma env_settings_live : env_settings (live_heads program) = take 5 notebook_env.
Proof. vm_compute. reflexivity. Qed.

Lemma commands_well_formed :
  Forall (fun a => well_formed_command a = true) (run_argvs all_heads).
Proof. evaluate (run_argvs all_heads). forall_by_compute. Qed.

Lemma run_argvs_subseteq (hs1 hs2 : list head) :
  hs1 ⊆ hs2 -> run_argvs hs1 ⊆ run_argvs hs2.
Proof.
  intros Hsub a Ha. apply list_elem_of_omap in Ha as (h & Hh & Ha).
  apply list_elem_of_omap. exists h. split; [by apply Hsub | done].
Qed.

(** Every command line of the trace is written in a cell. *)
Lemma runs_from_notebook bench s :
  Forall (fun inv => argv inv ∈ run_argvs all_heads) (new_runs s (run_notebook bench s)).
Proof.
  rewrite all_heads_unfold, run_notebook_unfold.
  eapply Forall_impl; [apply new_runs_traced |].
  intros inv [Hinv _]. revert Hinv. apply run_argvs_subseteq, live_heads_subseteq.
Qed.

(** ... and in a cell that compiles. *)
Lemma runs_from_live_cells bench s :
  Forall (fun inv => argv inv ∈ take 8 command_lines)
         (new_runs s (run_notebook bench s)).
Proof.
  rewrite run_notebook_unfold.
  eapply Forall_impl; [apply new_runs_traced |].
  intros inv [Hinv _]. revert Hinv.
  evaluate (run_argvs (live_heads program)).
  evaluate (take 8 command_lines).
  rewrite !elem_of_cons. tauto.
Qed.

(** The environment of the trace differs from the starting one in the
    first five settings at most. *)
Lemma runs_env_frame bench s v :
  v ∉ (take 5 notebook_env).*1 ->
  environ (state_of (run_notebook bench s)) !! v = environ s !! v
  /\ Forall (fun inv => env_at inv !! v = environ s !! v) (new_runs s (run_notebook bench s)).
Proof.
  intros Hv. rewrite <- env_settings_live in Hv. rewrite run_notebook_unfold. split.
  - by apply environ_frame.
  - eapply Forall_impl; [apply new_runs_traced |]. intros inv [_ Hinv]. by apply Hinv.
Qed.

(** ** Settings applied to an environment *)

Lemma apply_settings_app l1 l2 e :
  apply_settings (l1 ++ l2) e = apply_settings l2 (apply_settings l1 e).
Proof. apply foldl_app. Qed.

Lemma apply_settings_dom l e : dom e ⊆ dom (apply_settings l e).
Proof.
  revert e. induction l as [| [k v] l IHl]; intros e; simpl; [done |].
  etrans; [| apply IHl]. rewrite dom_insert. apply union_subseteq_r.
Qed.

(** A value survives settings that assign the variable nothing else. *)
Lemma apply_settings_keeps l e k v :
  (forall v', (k, v') ∈ l -> v' = v) ->
  e !! k = Some v ->
  apply_settings l e !! k = Some v.
Proof.
  revert e. induction l as [| [k' v'] l IHl]; intros e Hfun He; simpl; [done |].
  apply IHl.
  - intros w Hw. apply Hfun. by right.
  - destruct (decide (k' = k)) as [-> | Hne].
    + rewrite lookup_insert_eq. f_equal. apply Hfun. by left.
    + by rewrite lookup_insert_ne.
Qed.

Lemma apply_settings_sets l e k v :
  (forall v', (k, v') ∈ l -> v' = v) ->
  (k, v) ∈ l ->
  apply_settings l e !! k = Some v.
Proof.
  revert e. induction l as [| [k' v'] l IHl]; intros e Hfun Hin; simpl.
  - by apply elem_of_nil in Hin.
  - apply elem_of_cons in Hin as [[= <- <-] | Hin].
    + apply apply_settings_keeps; [| by rewrite lookup_insert_eq].
      intros w Hw. apply Hfun. by right.
    + apply IHl; [| done]. intros w Hw. apply Hfun. by right.
Qed.

(** Distinct names make a list of settings a function. *)
Lemma settings_functional (l : list (string * string)) k v v' :
  NoDup l.*1 -> (k, v) ∈ l -> (k, v') ∈ l -> v' = v.
Proof.
  induction l as [| [k0 v0] l IHl]; intros Hnd H1 H2.
  - by apply elem_of_nil in H1.
  - apply NoDup_cons in Hnd as [Hk0 Hnd].
    apply elem_of_cons in H1 as [H1 | H1];
      apply elem_of_cons in H2 as [H2 | H2]; simplify_eq; try done.
    + destruct Hk0. apply list_elem_of_fmap. by exists (k0, v').
    + destruct Hk0. apply list_elem_of_fmap. by exists (k0, v).
    + by apply IHl.
Qed.

Lemma notebook_env_functional n k v v' :
  (k, v) ∈ notebook_env -> (k, v') ∈ take n notebook_env -> v' = v.
Proof.
  intros H1 H2. eapply settings_functional; [apply notebook_env_NoDup | done |].
  by eapply subseteq_take.
Qed.

(** The first [n] settings are in force once they are applied. *)
Lemma prefix_in_force n e :
  in_force (take n notebook_env) (apply_settings (take n notebook_env) e).
Proof.
  apply Forall_forall. intros [k v] Hin. simpl.
  apply apply_settings_sets; [| done].
  intros v' Hv'. eapply notebook_env_functional; [| done]. by eapply subseteq_take.
Qed.

Lemma apply_settings_id l e : in_force l e -> apply_settings l e = e.
Proof.
  revert e. induction l as [| [k v] l IHl]; intros e Hforce; simpl; [done |].
  apply Forall_cons in Hforce as [Hkv Hforce]. simpl in Hkv.
  rewrite insert_id by done. by apply IHl.
Qed.

(** ** Command lines *)

(** Every word of a command line is a word before the first flag, a
    flag, or a value of a flag. *)
Lemma argv_decomposition ws :
  ws = positionals ws ++ (options ws ≫= fun o => o.1 :: o.2).
Proof.
  unfold positionals. induction ws as [| w ws IH]; [done |]. simpl.
  destruct (is_flag w); simpl.
  - by rewrite IH at 1.
  - by rewrite <- IH.
Qed.

(** ** The namespace after a script *)

(** A name that [%run] does not keep back is bound, after the script,
    to what the script left under it, and otherwise to what it was
    bound to before. *)
Lemma lookup_updated (globals ns : gmap string value) x :
  x ∉ kept_back ->
  (foldr delete globals kept_back ∪ ns) !! x
  = from_option Some (ns !! x) (globals !! x).
Proof.
  intros Hx. rewrite lookup_union. unfold kept_back in *. cbn [foldr].
  rewrite !lookup_delete_ne
    by (intros <-; apply Hx; rewrite !elem_of_cons; tauto).
  destruct (globals !! x), (ns !! x); reflexivity.
Qed.

Lemma benchmark_not_kept_back : "benchmark" ∉ kept_back.
Proof. apply (bool_decide_unpack _). vm_compute. exact I. Qed.


(** A bound name stays bound. *)
Lemma updated_is_Some (globals ns : gmap string value) x :
  is_Some (ns !! x) -> is_Some ((foldr delete globals kept_back ∪ ns) !! x).
Proof.
  intros [v Hv]. rewrite lookup_union.
  destruct (foldr delete globals kept_back !! x); rewrite ?Hv; by eexists.
Qed.

Lemma expand_dollar ns name : expand ns (String "$" name) = ns !! name.
Proof. reflexivity. Qed.

(** A setting of the notebook that holds after [n] settings holds
    after any later number of them. *)
Lemma setting_persists n m e k v :
  n <= m -> (k, v) ∈ notebook_env ->
  apply_settings (take n notebook_env) e !! k = Some v ->
  apply_settings (take m notebook_env) e !! k = Some v.
Proof.
  intros Hnm Hin Hn.
  replace m with (n + (m - n)) by lia.
  rewrite <- take_take_drop, apply_settings_app.
  apply apply_settings_keeps; [| done].
  intros v' Hv'. eapply settings_functional; [apply notebook_env_NoDup | done |].
  eapply subseteq_drop, subseteq_take, Hv'.
Qed.

Lemma sorted_lookup_le (l : list nat) i j x y :
  StronglySorted le l -> i <= j -> l !! i = Some x -> l !! j = Some y -> x <= y.
Proof.
  intros Hs. revert i j. induction Hs as [| a l Hs IH Ha]; intros i j Hij Hi Hj.
  - by rewrite lookup_nil in Hi.
  - destruct i as [| i], j as [| j]; simpl in *; simplify_eq; try lia.
    + eapply Forall_forall in Ha; [exact Ha |]. by eapply list_elem_of_lookup_2.
    + eapply IH; [| done..]. lia.
Qed.

Lemma settings_in_force_sorted : StronglySorted le settings_in_force.
Proof. unfold settings_in_force. repeat constructor; lia. Qed.

(** ** Settings that already hold *)

(** When the seven settings hold at the start, no statement changes
    the environment, and every invocation sees it. *)
Lemma settled_environment bench cs s :
  (env_settings (live_heads cs)) ⊆ notebook_env ->
  in_force notebook_env (environ s) ->
  environ (state_of (run_cells bench cs s)) = environ s
  /\ exists new, runs (state_of (run_cells bench cs s)) = runs s ++ new
       /\ Forall (fun inv => env_at inv = environ s) new.
Proof.
  intros Hsub.
  apply (run_cells_sound bench
           (fun h => forall k x, h = HEnv k x -> (k, x) ∈ notebook_env)
           (fun s r => in_force notebook_env (environ s) ->
              environ (state_of r) = environ s
              /\ exists new, runs (state_of r) = runs s ++ new
                   /\ Forall (fun inv => env_at inv = environ s) new)).
  - intros s0 _. split; [done |]. exists []. split; [by rewrite app_nil_r | constructor].
  - intros s0 s1 r H1 H2 Hforce. destruct (H1 Hforce) as [E1 (new1 & R1 & T1)].
    simpl in E1, R1. rewrite <- E1 in Hforce.
    destruct (H2 Hforce) as [E2 (new2 & R2 & T2)].
    split; [by rewrite E2 |]. exists (new1 ++ new2).
    split; [by rewrite R2, R1, app_assoc |]. apply Forall_app. split; [done |].
    eapply Forall_impl; [exact T2 |]. intros inv ->. done.
  - intros h s0 Hh Hforce.
    destruct h as [k x | written target args | | | | | | | | | |].
    + specialize (Hh k x eq_refl). unfold in_force in Hforce.
      rewrite Forall_forall in Hforce. specialize (Hforce _ Hh). simpl in Hforce.
      split; [simpl; by apply insert_id |].
      exists []. split; [by rewrite app_nil_r | constructor].
    + destruct (exec_run_cases bench written target args s0)
        as [[e ->] | (w & raised & globals & _ & _ & ->)].
      * split; [done |]. exists []. split; [by rewrite app_nil_r | constructor].
      * split; [done |]. exists [Invocation w args (environ s0)].
        split; [reflexivity |]. by repeat constructor.
    + split; [by exec_head_cases |].
      exists []. split; [rewrite app_nil_r; by exec_head_cases | constructor].
    + split; [by exec_head_cases |].
      exists []. split; [rewrite app_nil_r; by exec_head_cases | constructor].
    + split; [by exec_head_cases |].
      exists []. split; [rewrite app_nil_r; by exec_head_cases | constructor].
    + split; [by exec_head_cases |].
      exists []. split; [rewrite app_nil_r; by exec_head_cases | constructor].
    + split; [by exec_head_cases |].
      exists []. split; [rewrite app_nil_r; by exec_head_cases | constructor].
    + split; [by exec_head_cases |].
      exists []. split; [rewrite app_nil_r; by exec_head_cases | constructor].
    + split; [by exec_head_cases |].
      exists []. split; [rewrite app_nil_r; by exec_head_cases | constructor].
    + split; [by exec_head_cases |].
      exists []. split; [rewrite app_nil_r; by exec_head_cases | constructor].
    + split; [by exec_head_cases |].
      exists []. split; [rewrite app_nil_r; by exec_head_cases | constructor].
    + split; [by exec_head_cases |].
      exists []. split; [rewrite app_nil_r; by exec_head_cases | constructor].
  - intros x it v s0 _ _. split; [done |].
    exists []. split; [by rewrite app_nil_r | constructor].
  - intros e s0 _. split; [done |].
    exists []. split; [by rewrite app_nil_r | constructor].
  - apply Forall_forall. intros h Hin k x ->. apply Hsub.
    apply list_elem_of_omap. by exists (HEnv k x).
Qed.

(** ** The tracebacks shown *)

(** The tracebacks a run adds are the errors its invocations raised,
    in order. *)
Lemma tracebacks_traced bench cs s :
  exists new,
    runs (state_of (run_cells bench cs s)) = runs s ++ new
    /\ tracebacks (state_of (run_cells bench cs s))
       = tracebacks s ++ (new ≫= fun inv => option_list (raised_by bench inv)).
Proof.
  apply (run_cells_sound bench (fun _ => True)
           (fun s r => exists new, runs (state_of r) = runs s ++ new
              /\ tracebacks (state_of r)
                 = tracebacks s ++ (new ≫= fun inv => option_list (raised_by bench inv)))).
  - intros s0. exists []. by rewrite !app_nil_r.
  - intros s0 s1 r (new1 & R1 & T1) (new2 & R2 & T2). simpl in R1, T1.
    exists (new1 ++ new2). rewrite R2, R1, T2, T1, bind_app, !app_assoc. done.
  - intros h s0 _.
    destruct h as [| written target args | | | | | | | | | |];
      [| destruct (exec_run_cases bench written target args s0)
           as [[e ->] | (w & raised & globals & _ & Hb & ->)] | ..];
      try (exists []; rewrite !app_nil_r; by exec_head_cases).
    exists [Invocation w args (environ s0)]. split; [reflexivity |].
    simpl. unfold raised_by. by rewrite Hb, app_nil_r.
  - intros x it v s0 _. exists []. by rewrite !app_nil_r.
  - intros e s0. exists []. by rewrite !app_nil_r.
  - by apply Forall_true.
Qed.

(** ** The names a run binds *)



(** ** What the script raises is nothing to the cells *)

Lemma set_tracebacks_id s : set_tracebacks (tracebacks s) s = s.
Proof. by destruct s. Qed.

Section Quiet.

Variable bench : invocation -> outcome.

(** A statement does under [quiet bench] what it does under [bench],
    the tracebacks apart. *)
Lemma exec_head_quiet h s t :
  exec_head (quiet bench) h (set_tracebacks t s)
  = with_tracebacks t (exec_head bench h s).
Proof.
  destruct s as [e0 n0 c0 o0 sh0 r0 t0].
  destruct h as [k x | written target args | | | | | y e | obj key e | | e | |];
    try reflexivity.
  - cbn [exec_head]. cbv [user_ns environ set_tracebacks].
    destruct (negb (automagic written n0)).
    { unfold as_python. by destruct (starts_with "$" target). }
    destruct (negb (expandable target args)); [reflexivity |].
    destruct (expand n0 target) as [v |]; [| reflexivity].
    unfold quiet. destruct (bench (Invocation v args e0)) as [| raised globals];
      [reflexivity |].
    cbv [with_tracebacks set_tracebacks update_user_ns showtraceback record_run
         user_ns environ ext_items stdout shell_cmds runs tracebacks option_list].
    by rewrite app_nil_r.
  - cbn [exec_head]. cbv [user_ns set_tracebacks]. by destruct (eval n0 e).
  - cbn [exec_head]. cbv [user_ns set_tracebacks].
    destruct (n0 !! obj) as [[| | p] |]; try reflexivity.
    destruct (eval n0 key) as [[| k |] |]; try reflexivity.
    by destruct (eval n0 e).
  - cbn [exec_head]. cbv [user_ns set_tracebacks].
    by destruct (eval n0 e) as [[| |] |].
Qed.

Lemma with_tracebacks_seq t (r : result) (k k' : state -> result) :
  (forall s1, k' (set_tracebacks t s1) = with_tracebacks t (k s1)) ->
  match with_tracebacks t r with Done s1 => k' s1 | Fail e s1 => Fail e s1 end
  = with_tracebacks t (match r with Done s1 => k s1 | Fail e s1 => Fail e s1 end).
Proof. intros Hk. destruct r as [s1 | e s1]; simpl; [apply Hk | reflexivity]. Qed.

Lemma for_range_quiet (f g : nat -> state -> result) t :
  (forall i s, g i (set_tracebacks t s) = with_tracebacks t (f i s)) ->
  forall n k s,
    for_range g n k (set_tracebacks t s) = with_tracebacks t (for_range f n k s).
Proof.
  intros Hfg n. induction n as [| n IHn]; intros k s; simpl; [reflexivity |].
  rewrite Hfg. apply with_tracebacks_seq. intros s1. apply IHn.
Qed.

Lemma exec_seq_quiet_from l t :
  Forall (fun st => forall s, exec_stmt (quiet bench) st (set_tracebacks t s)
                              = with_tracebacks t (exec_stmt bench st s)) l ->
  forall s, exec_seq (quiet bench) l (set_tracebacks t s)
            = with_tracebacks t (exec_seq bench l s).
Proof.
  induction 1 as [| st l Hst _ IHl]; intros s; simpl; [reflexivity |].
  rewrite Hst. apply with_tracebacks_seq. exact IHl.
Qed.

Lemma exec_stmt_quiet st t s :
  exec_stmt (quiet bench) st (set_tracebacks t s)
  = with_tracebacks t (exec_stmt bench st s).
Proof.
  revert s. induction st as [h | h body IHbody] using stmt_nested_ind; intros s.
  - apply exec_head_quiet.
  - destruct h; try (rewrite !exec_block_other by done; reflexivity).
    rewrite !exec_for.
    replace (user_ns (set_tracebacks t s)) with (user_ns s) by (by destruct s).
    destruct (eval_range (user_ns s) iter) as [n |]; [| reflexivity].
    apply for_range_quiet. intros i s0.
    replace (bind var (VInt i) (set_tracebacks t s0))
      with (set_tracebacks t (bind var (VInt i) s0)) by (by destruct s0).
    by apply exec_seq_quiet_from.
Qed.

Lemma exec_stmts_quiet l t s :
  exec_stmts (quiet bench) l (set_tracebacks t s)
  = with_tracebacks t (exec_stmts bench l s).
Proof.
  unfold exec_stmts. destruct (uncompiled l) as [h |].
  - unfold as_python. destruct h; try reflexivity. by destruct (starts_with "$" target).
  - apply exec_seq_quiet_from, Forall_forall. intros st _ s0. apply exec_stmt_quiet.
Qed.

Lemma run_cells_quiet cs t s :
  run_cells (quiet bench) cs (set_tracebacks t s)
  = with_tracebacks t (run_cells bench cs s).
Proof.
  revert s. induction cs as [| c cs IHcs]; intros s; simpl; [reflexivity |].
  rewrite exec_stmts_quiet. apply with_tracebacks_seq. exact IHcs.
Qed.

End Quiet.

(** ** Symbolic execution of the cells *)

Ltac compute_text :=
  repeat match goal with
    | |- context [top_package ?m] =>
        let v := eval vm_compute in (top_package m) in change (top_package m) with v
    | |- context [dotted ?p ?a] =>
        let v := eval vm_compute in (dotted p a) in change (dotted p a) with v
    | |- context [format ?f ?a] =>
        let v := eval vm_compute in (format f a) in change (format f a) with v
    | |- context [decimal ?n] =>
        let v := eval vm_compute in (decimal n) in change (decimal n) with v
    | |- context [String.app ?a ?b] =>
        let v := eval vm_compute in (String.app a b) in change (String.app a b) with v
    | |- context [expandable ?t ?a] =>
        let v := eval vm_compute in (expandable t a) in change (expandable t a) with v
    | |- context [uncompiled ?l] =>
        let v := eval vm_compute in (uncompiled l) in change (uncompiled l) with v
    | |- context [starts_with ?a ?b] =>
        let v := eval vm_compute in (starts_with a b) in change (starts_with a b) with v
    end.

Ltac forward_step :=
  cbn [run_cells exec_seq exec_stmt exec_head for_range eval_range eval
       automagic negb andb as_python
       fmap option_fmap option_map];
  cbv [exec_stmts];
  cbv [user_ns environ ext_items stdout shell_cmds runs tracebacks
       bind set_environ set_item write system record_run showtraceback update_user_ns];
  repeat first
    [ rewrite expand_dollar
    | rewrite lookup_insert_eq
    | rewrite lookup_insert_ne by done
    | match goal with
      | H : ?m !! ?x = _ |- context [?m !! ?x] => rewrite H
      end ];
  compute_text.

Ltac forward := repeat progress forward_step.

Lemma pinning_cell_ast :
  pinning_cell =
  [ Simple (HEnv "KMP_HW_SUBSET" "8c,1t");
    Simple (HEnv "KMP_AFFINITY" "compact");
    Simple (HEnv "DEVITO_ARCH" "intel");
    Simple (HFromImport "devito" "configuration");
    Simple (HSetItem "configuration" (EStr "compiler") (EStr "intel"));
    Block (HFor "i" (ERange (EInt 3)))
      [ Simple (HPrint (EFormat (EStr "Run %d") (EPath "i" [])));
        Simple (HRun Percent "$benchmark" pinning_argv) ] ].
Proof. vm_compute. reflexivity. Qed.

Ltac split_stuck :=
  match goal with
  | |- context [match ?m !! "benchmark" with _ => _ end] =>
      let v := fresh "v" in destruct (m !! "benchmark") as [v |] eqn:?
  | |- context [match ?x with NoFile => _ | Ran _ _ => _ end] =>
      let r := fresh "raised" in let g := fresh "globals" in
      destruct x as [| r g] eqn:?
  | |- context [is_shadowed "run" ?m] => destruct (is_shadowed "run" m) eqn:?
  end.

Ltac symbolic := repeat (forward; try split_stuck).

Lemma lookup_updated_unbound (globals ns : gmap string value) x :
  x ∉ kept_back -> globals !! x = None ->
  (foldr delete globals kept_back ∪ ns) !! x = ns !! x.
Proof. intros Hx Hg. by rewrite lookup_updated, Hg. Qed.

(** What [leaves_unbound] says of the invocations met so far. *)
Ltac use_unbound Hkeep :=
  repeat match goal with
    | Hb : _ = Ran _ ?g |- _ =>
        lazymatch goal with
        | _ : g !! "benchmark" = None |- _ => fail
        | _ => pose proof (Hkeep _ _ _ Hb)
        end
    end;
  repeat match goal with
    | H : _ !! "benchmark" = Some _ |- _ =>
        progress repeat first
          [ rewrite lookup_updated_unbound in H by (apply benchmark_not_kept_back || done)
          | rewrite lookup_insert_ne in H by done ]
    end.

(** The thread-pinning cell from any state.  When it completes it has
    made the three settings and three invocations, each of the script
    that [benchmark] names at that moment; when it stops, it stops in
    [%run], which found no script file, after fewer invocations. *)
Lemma pinning_cell_shape bench s :
  match exec_stmts bench pinning_cell s with
  | Done s' =>
      exists v v2 v3,
        user_ns s !! "benchmark" = Some v
        /\ runs s' = runs s ++ [pinning_invocation v (environ s);
                                pinning_invocation v2 (environ s);
                                pinning_invocation v3 (environ s)]
        /\ environ s' = apply_settings pinning_settings (environ s)
        /\ is_Some (user_ns s' !! "benchmark")
        /\ (leaves_unbound bench "benchmark" -> v2 = v /\ v3 = v)
  | Fail e s' =>
      e = FileNotFound "$benchmark"
      /\ environ s' = apply_settings pinning_settings (environ s)
      /\ exists new,
           runs s' = runs s ++ new
           /\ length new < 3
           /\ Forall (fun inv => argv inv = pinning_argv
                                 /\ env_at inv = apply_settings pinning_settings (environ s)) new
  end.
Proof.
  rewrite pinning_cell_ast. destruct s as [e0 n0 c0 o0 sh0 r0 t0].
  symbolic;
    try (split; [reflexivity |]; split; [reflexivity |];
         first [ exists []; split; [by rewrite app_nil_r |]
               | eexists; split; [rewrite <- ?app_assoc; reflexivity |] ];
         split; [simpl; lia | by repeat constructor]).
  do 3 eexists. split; [reflexivity |].
  split; [rewrite <- !app_assoc; reflexivity |].
  split; [reflexivity |].
  split.
  { repeat first [apply updated_is_Some | rewrite lookup_insert_ne by done].
    by eexists. }
  intros Hkeep. use_unbound Hkeep. split; congruence.
Qed.


(** ** The course of every run *)

Ltac stopped_at k :=
  exists k; unfold stopped;
  cbv [user_ns environ ext_items stdout shell_cmds runs tracebacks];
  split; [lia |];
  split; [eexists; split;
          [rewrite <- ?app_assoc; first [reflexivity | symmetry; apply app_nil_r]
          | reflexivity] |];
  split; [reflexivity |];
  split; [rewrite <- ?app_assoc; first [reflexivity | symmetry; apply app_nil_r] |];
  split; [first [reflexivity | symmetry; apply app_nil_r] |];
  split; [reflexivity |];
  eexists; split; [vm_compute; reflexivity |];
  first [left; split; [reflexivity | lia] | right; split; [reflexivity | lia]].

Lemma run_shape bench s :
  match run_notebook bench s with
  | Done _ => False
  | Fail e s' => exists k, stopped s k e s'
  end.
Proof.
  rewrite run_notebook_unfold, program_ast. destruct s as [e0 n0 c0 o0 sh0 r0 t0].
  symbolic.
  all: first [ stopped_at 0 | stopped_at 1 | stopped_at 2 | stopped_at 3 | stopped_at 4
             | stopped_at 5 | stopped_at 6 | stopped_at 7 | stopped_at 8 ].
Qed.

(** ** Corollaries on the course of a run *)

(** No run of the notebook completes: it stops in [%run], which finds
    no script file, or at a [run] line that is no Python. *)
Lemma run_stops bench s :
  exists k e s', run_notebook bench s = Fail e s' /\ stopped s k e s'.
Proof.
  pose proof (run_shape bench s) as H.
  destruct (run_notebook bench s) as [s' | e s']; [done |].
  destruct H as [k Hk]. by exists k, e, s'.
Qed.

(** What a run with a script that is found and returns comes to. *)
Lemma run_from_empty :
  run_notebook bench_ok empty_state = Fail (SyntaxError autotuning_line) final_state.
Proof. vm_compute. reflexivity. Qed.

Lemma final_state_runs : runs final_state = reached_runs benchmark_path ∅.
Proof. vm_compute. reflexivity. Qed.

Lemma final_state_environ : environ final_state = apply_settings (take 5 notebook_env) ∅.
Proof. vm_compute. reflexivity. Qed.

(** The trace of a run is an initial part of the reached trace. *)
Lemma run_trace_prefix bench s :
  exists k, k <= 8
    /\ trace (new_runs s (run_notebook bench s)) = take k (reached_trace (environ s)).
Proof.
  destruct (run_stops bench s) as (k & e & s' & -> & Hk & (new & Hruns & Htrace) & _).
  exists k. split; [done |]. by rewrite (new_runs_app s (Fail e s') new Hruns).
Qed.

(** The two variables of the cells that do not compile are never
    touched, and [-a] is never passed. *)
Lemma never_reached bench s :
  Forall (fun inv =>
            ("-a" ∉ argv inv)
            /\ env_at inv !! "DEVITO_AUTOTUNING" = environ s !! "DEVITO_AUTOTUNING"
            /\ env_at inv !! "DEVITO_BACKEND" = environ s !! "DEVITO_BACKEND")
         (new_runs s (run_notebook bench s)).
Proof.
  assert (Ha : "DEVITO_AUTOTUNING" ∉ (take 5 notebook_env).*1)
    by (apply (bool_decide_unpack _); vm_compute; exact I).
  assert (Hb : "DEVITO_BACKEND" ∉ (take 5 notebook_env).*1)
    by (apply (bool_decide_unpack _); vm_compute; exact I).
  pose proof (runs_from_live_cells bench s) as H1.
  pose proof (proj2 (runs_env_frame bench s _ Ha)) as H2.
  pose proof (proj2 (runs_env_frame bench s _ Hb)) as H3.
  rewrite Forall_forall in H1. rewrite Forall_forall in H2. rewrite Forall_forall in H3.
  apply Forall_forall. intros inv Hin. split; [| split; [by apply H2 | by apply H3]].
  specialize (H1 inv Hin). revert H1. evaluate (take 8 command_lines).
  rewrite !elem_of_cons, elem_of_nil.
  intros [-> | [-> | [-> | [-> | [-> | [-> | [-> | [-> | []]]]]]]]];
    apply (bool_decide_unpack _); vm_compute; exact I.
Qed.

(** ** The claims *)

(** C1.  The cells write seven [%env] statements, the seven settings
    that the specification lists, and no other line of code mentions
    the environment.  But a run does not make all seven.  The
    statements [%env DEVITO_AUTOTUNING=aggressive] and
    [%env DEVITO_BACKEND=yask] stand in cells whose second line is
    [run ...] without [%]: such a cell does not compile, and nothing of
    it runs.  The [%env] statements of the cells that compile are the
    first five.  Whatever the script does, a run leaves the
    environment it started in with none or with the first five of the
    settings made; with a script that is found and returns, the run
    started in an empty state stops at the auto-tuning cell with a
    syntax error, the first five settings made and the other two
    variables unset. *)
Theorem env_variables_set :
  env_settings all_heads = notebook_env
  /\ length notebook_env = 7
  /\ NoDup notebook_env.*1
  /\ filter (fun l => mentions environment_words l = true) code_lines
     = env_line <$> notebook_env
  /\ env_settings (live_heads program) = take 5 notebook_env
  /\ (forall bench s, exists n,
        n ∈ [0; 5]
        /\ environ (state_of (run_notebook bench s))
           = apply_settings (take n notebook_env) (environ s))
  /\ run_notebook bench_ok empty_state = Fail (SyntaxError autotuning_line) final_state
  /\ environ final_state = apply_settings (take 5 notebook_env) ∅
  /\ in_force (take 5 notebook_env) (environ final_state)
  /\ environ final_state !! "DEVITO_AUTOTUNING" = None
  /\ environ final_state !! "DEVITO_BACKEND" = None.
Proof.
  split; [vm_compute; reflexivity |].
  split; [reflexivity |].
  split; [apply notebook_env_NoDup |].
  split; [vm_compute; reflexivity |].
  split; [apply env_settings_live |].
  split.
  { intros bench s.
    destruct (run_stops bench s) as (k & e & s' & -> & _ & _ & Henv & _).
    exists (if k <? 2 then 0 else 5). split; [| exact Henv].
    destruct (k <? 2); rewrite !elem_of_cons; tauto. }
  split; [apply run_from_empty |].
  split; [apply final_state_environ |].
  split; [rewrite final_state_environ; apply prefix_in_force |].
  split; vm_compute; reflexivity.
Qed.

(** C2. Every command line that the notebook passes to the benchmark
    script is either [--help] alone or the subcommand [run] followed by
    flags from a set of exactly seven: [-P], [-so], [-d] (with three
    values), [--tn], [-dse], [-dle] (one value each) and [-a] (no
    value).  Every word of a command line is the subcommand, a flag or
    a value of a flag; all seven flags occur, no other flag occurs, and
    the same holds of every invocation that an execution of the cells
    performs. *)
Theorem benchmark_flags_exact :
  (forall a, a = positionals a ++ (options a ≫= fun o => o.1 :: o.2))
  /\ Forall (fun a => well_formed_command a = true) (run_argvs all_heads)
  /\ (forall f, f ∈ flags_used <-> f = "--help" \/ f ∈ benchmark_flags.*1)
  /\ length benchmark_flags = 7
  /\ NoDup benchmark_flags.*1
  /\ forall bench s,
       Forall (fun inv => well_formed_command (argv inv) = true)
              (new_runs s (run_notebook bench s)).
Proof.
  split; [apply argv_decomposition |].
  split; [apply commands_well_formed |].
  split.
  { intros f.
    assert (flags_used = ["--help"; "-dle"; "-a"; "-P"; "-so"; "-d"; "--tn"; "-dse"])
      as -> by (vm_compute; reflexivity).
    cbn [benchmark_flags fmap list_fmap fst].
    rewrite !elem_of_cons, !elem_of_nil. tauto. }
  split; [reflexivity |].
  split; [apply (bool_decide_unpack _); vm_compute; exact I |].
  intros bench s.
  eapply Forall_impl; [apply runs_from_notebook |].
  intros inv Hinv. cbv beta in Hinv.
  pose proof commands_well_formed as Hall.
  rewrite Forall_forall in Hall. exact (Hall _ Hinv).
Qed.

(** C10. Each of the seven command lines of the notebook that call the
    subcommand [run] selects the preset with [-P acoustic]; wherever a
    spatial order is given it is [8], wherever an end time is given it
    is [50], and wherever a symbolic-optimisation level is given it is
    [advanced].  The same holds of every [run] invocation that an
    execution of the cells performs. *)
Theorem run_presets :
  length run_subcommands = 7
  /\ Forall (fun a => acoustic_presets a = true) run_subcommands
  /\ forall bench s,
       Forall (fun inv => acoustic_presets (argv inv) = true)
              (filter (fun inv => positionals (argv inv) = ["run"])
                      (new_runs s (run_notebook bench s))).
Proof.
  assert (Hstatic : Forall (fun a => acoustic_presets a = true) run_subcommands).
  { evaluate run_subcommands. forall_by_compute. }
  split; [vm_compute; reflexivity |].
  split; [exact Hstatic |].
  intros bench s. apply Forall_forall. intros inv Hinv.
  apply list_elem_of_filter in Hinv as [Hrun Hinv].
  pose proof (runs_from_notebook bench s) as Hfrom.
  rewrite Forall_forall in Hfrom. rewrite Forall_forall in Hstatic.
  apply Hstatic. unfold run_subcommands. apply list_elem_of_filter.
  split; [exact Hrun | exact (Hfrom _ Hinv)].
Qed.

(** C5.  Each of the four external engines is referred to in the code
    only by a [run] line that carries its flag or by the [%env] line of
    its variable: the symbolic engine by [-dse], the loop engine by
    [-dle], the auto-tuner by [-a] and [DEVITO_AUTOTUNING=aggressive],
    the alternate backend by [DEVITO_BACKEND=yask]; no statement
    defines anything.  But a run reaches only two of the four.  With a
    script that is found and returns, three invocations carry [-dse]
    and one carries [-dle]; none reaches the auto-tuner or the
    alternate backend, for their cells do not compile.  Whatever the
    script does, no invocation of any run carries [-a], and none sees
    [DEVITO_AUTOTUNING] or [DEVITO_BACKEND] other than the run found
    them. *)
Theorem engines_reached :
  (forall e,
     0 < length (uses e)
     /\ Forall (fun lh => through_knob e lh.2 = true) (uses e))
  /\ Forall (fun h => elementary h = true) all_heads
  /\ (fun e => length (filter (fun inv => exercises e inv = true) (runs final_state)))
     <$> [DSE; DLE; AutoTuner; YASK] = [3; 1; 0; 0]
  /\ forall bench s,
       Forall (fun inv =>
                 ("-a" ∉ argv inv)
                 /\ exercises AutoTuner inv = false
                 /\ env_at inv !! "DEVITO_AUTOTUNING" = environ s !! "DEVITO_AUTOTUNING"
                 /\ env_at inv !! "DEVITO_BACKEND" = environ s !! "DEVITO_BACKEND")
              (new_runs s (run_notebook bench s)).
Proof.
  split.
  { intros e. split.
    - destruct e;
        match goal with |- context [uses ?e] => evaluate (uses e) end; simpl; lia.
    - destruct e;
        match goal with |- context [uses ?e] => evaluate (uses e) end; forall_by_compute. }
  split; [apply all_heads_elementary |].
  split; [vm_compute; reflexivity |].
  intros bench s. eapply Forall_impl; [apply never_reached |].
  intros inv (Ha & Ht & Hb). split; [done |]. split; [| done].
  unfold exercises. cbn [engine_flag from_option]. by rewrite bool_decide_eq_false_2.
Qed.

(** C4, as worded.  The claim lists five kinds of statement; the
    assignment [benchmark = examples.seismic.benchmark.__file__] of the
    first code cell is of none of them. *)
Lemma kinds_not_only_listed : ~ only_listed_kinds.
Proof.
  intros Hall.
  pose (h := HAssign "benchmark" (EPath "examples" ["seismic"; "benchmark"; "__file__"])).
  assert (Hin : h ∈ all_heads).
  { rewrite all_heads_ast. apply (list_elem_of_lookup_2 _ 1). reflexivity. }
  apply Hall in Hin. cbv [h kind_of listed_kinds] in Hin.
  repeat (apply elem_of_cons in Hin as [Hin | Hin]; [discriminate |]).
  by apply elem_of_nil in Hin.
Qed.

(** C4, amended.  Every statement of every code cell is an import, an
    environment-variable assignment, an invocation of the benchmark
    script, a shell command, an assignment into the configuration of
    the external library, the assignment of a name, a [for] loop over a
    [range], or a [print] call.  The statements outside the five listed
    kinds are exactly three: the assignment to [benchmark], the loop
    [for i in range(3)] and the [print] in its body.  No statement is a
    [def], a [class] or any other keyword statement, and no expression
    builds a data structure. *)
Theorem statement_kinds :
  Forall (fun h => kind_of h ∈ used_kinds) all_heads
  /\ filter (fun h => kind_of h ∉ listed_kinds) all_heads
     = [ HAssign "benchmark" (EPath "examples" ["seismic"; "benchmark"; "__file__"]);
         HFor "i" (ERange (EInt 3));
         HPrint (EFormat (EStr "Run %d") (EPath "i" [])) ]
  /\ Forall (fun h => elementary h = true) all_heads.
Proof.
  split; [| split; [| apply all_heads_elementary]].
  - rewrite all_heads_ast.
    repeat (apply Forall_cons_2; [apply (bool_decide_unpack _); vm_compute; exact I |]).
    apply Forall_nil_2.
  - rewrite all_heads_ast. vm_compute. reflexivity.
Qed.



(** C6, as worded.  A cell does start a process: the shell escape
    [! lscpu] hands a command to the system shell. *)
Lemma shell_starts_process : ~ starts_no_process.
Proof.
  intros Hnone. specialize (Hnone bench_ok empty_state).
  vm_compute in Hnone. discriminate.
Qed.

(** C6, amended.  The code of the notebook implements no concurrency.
    Every statement is of one of eight elementary kinds, none of which
    creates a thread, synchronises, or runs beside another; the
    imports are the benchmark module and the configuration of the
    library.  The one process a cell starts is the shell command
    [lscpu], at most once in a run.  What the cells ask of the library
    and the operating system, they ask in four ways, all listed here:
    the seven [%env] settings, of which four, [DEVITO_OPENMP],
    [OMP_NUM_THREADS], [KMP_HW_SUBSET] and [KMP_AFFINITY], ask for
    threads and their placement; the item assignment
    [configuration['compiler'] = 'intel'], which selects a compiler;
    the command lines, whose flags are the seven of the benchmark and
    [--help]; and [lscpu].  No other line of code names a thread,
    process or synchronisation facility. *)
Theorem no_concurrency_but_shell :
  Forall (fun h => kind_of h ∈ used_kinds /\ elementary h = true) all_heads
  /\ imported all_heads = ["examples.seismic.benchmark"; "devito.configuration"]
  /\ shell_commands all_heads = ["lscpu"]
  /\ item_assignments all_heads = [("configuration", EStr "compiler", EStr "intel")]
  /\ env_settings all_heads = notebook_env
  /\ filter (fun kv => bool_decide (kv.1 ∈ parallelism_variables)) notebook_env
     = take 4 notebook_env
  /\ (drop 4 notebook_env).*1 = ["DEVITO_ARCH"; "DEVITO_AUTOTUNING"; "DEVITO_BACKEND"]
  /\ Forall (fun f => f ∈ "--help" :: benchmark_flags.*1) flags_used
  /\ filter (fun l => mentions concurrency_words l = true) code_lines
     = ["%env OMP_NUM_THREADS=8"]
  /\ (forall bench s,
        shell_cmds (state_of (run_notebook bench s)) = shell_cmds s
        \/ shell_cmds (state_of (run_notebook bench s)) = shell_cmds s ++ ["lscpu"])
  /\ shell_cmds final_state = ["lscpu"]
  /\ in_force (take 4 notebook_env) (environ final_state).
Proof.
  split.
  { rewrite all_heads_ast.
    repeat (apply Forall_cons_2;
            [split; [apply (bool_decide_unpack _); vm_compute; exact I
                    | vm_compute; reflexivity] |]).
    apply Forall_nil_2. }
  split; [vm_compute; reflexivity |].
  split; [vm_compute; reflexivity |].
  split; [vm_compute; reflexivity |].
  split; [vm_compute; reflexivity |].
  split; [vm_compute; reflexivity |].
  split; [vm_compute; reflexivity |].
  split.
  { evaluate flags_used.
    repeat (apply Forall_cons_2; [apply (bool_decide_unpack _); vm_compute; exact I |]).
    apply Forall_nil_2. }
  split; [vm_compute; reflexivity |].
  split.
  { intros bench s.
    destruct (run_stops bench s) as (k & e & s' & -> & _ & _ & _ & _ & Hsh & _).
    cbn [state_of]. rewrite Hsh.
    destruct (k <? 2); [left; apply app_nil_r | by right]. }
  split; [vm_compute; reflexivity |].
  unfold in_force. evaluate (take 4 notebook_env). forall_by_compute.
Qed.

Lemma no_handling_keywords :
  Forall (fun l => bool_decide (leading_word l ∈ handling_keywords) = false) code_lines.
Proof. evaluate code_lines. forall_by_compute. Qed.

Lemma no_outcome_words :
  filter (fun l => mentions outcome_words l = true) code_lines = [].
Proof. vm_compute. reflexivity. Qed.

(** C7, as worded.  An error that the script raises does not end the
    run.  With a script that raises in every invocation, the first
    invocation, [--help], raises, and the run goes on to seven more
    invocations. *)
Lemma errors_do_not_propagate :
  ~ errors_propagate_unhandled
  /\ length (new_runs empty_state (run_notebook bench_raises empty_state)) = 8
  /\ tracebacks (state_of (run_notebook bench_raises empty_state))
     = replicate 8 "RuntimeError".
Proof.
  split; [| split; vm_compute; reflexivity].
  intros Hprop.
  pose (inv := Invocation benchmark_path ["--help"] ∅).
  assert (Hin : inv ∈ new_runs empty_state (run_notebook bench_raises empty_state)).
  { apply (list_elem_of_lookup_2 _ 0). vm_compute. reflexivity. }
  destruct (Hprop bench_raises empty_state inv "RuntimeError" Hin eq_refl)
    as (e & s' & Hrun & Hlast).
  assert (Hreal : exists e0 s0, run_notebook bench_raises empty_state = Fail e0 s0
                    /\ (argv <$> last (runs s0)) <> Some ["--help"]).
  { eexists _, _. split; [vm_compute; reflexivity |]. vm_compute. discriminate. }
  destruct Hreal as (e0 & s0 & Hrun0 & Hne). rewrite Hrun in Hrun0.
  injection Hrun0 as _ <-. rewrite Hlast in Hne. by apply Hne.
Qed.

(** C7, amended.  No code cell handles a failure: no line starts with
    [try], [except], [finally], [raise], [assert], [if], [elif],
    [else], [while] or [with], no line reads an exit code or an
    exception, and no statement is a keyword statement.  An error that
    the script raises in an invocation does not reach the code of the
    notebook: [%run] catches it and shows its traceback, and the cell
    goes on.  So a run under any script is, the tracebacks apart, the
    run under the same script with its errors taken away, and the
    tracebacks it adds are the errors its invocations raised, in
    order. *)
Theorem script_errors_are_caught bench s :
  run_notebook (quiet bench) s = with_tracebacks (tracebacks s) (run_notebook bench s)
  /\ new_tracebacks s (run_notebook bench s)
     = new_runs s (run_notebook bench s) ≫= (fun inv => option_list (raised_by bench inv))
  /\ Forall (fun l => bool_decide (leading_word l ∈ handling_keywords) = false) code_lines
  /\ filter (fun l => mentions outcome_words l = true) code_lines = []
  /\ Forall (fun h => elementary h = true) all_heads.
Proof.
  split.
  { rewrite !run_notebook_unfold. rewrite <- (set_tracebacks_id s) at 1.
    apply run_cells_quiet. }
  split.
  { rewrite run_notebook_unfold.
    destruct (tracebacks_traced bench program s) as (new & Hruns & Htb).
    rewrite (new_runs_app _ _ _ Hruns). unfold new_tracebacks.
    by rewrite Htb, drop_app_length. }
  split; [apply no_handling_keywords |].
  split; [apply no_outcome_words | apply all_heads_elementary].
Qed.

(** C8.  The thread-pinning cell invokes the benchmark script exactly
    three times when it completes, each time with the command line
    [run -P acoustic -so 8 -d 256 256 256 --tn 50] and in the same
    environment.  The first invocation is of the script that
    [benchmark] names when the cell starts, and so are the other two
    unless the script itself leaves a global of the name [benchmark],
    which [%run] would copy into the namespace.  The grid is
    256 x 256 x 256, whereas the narrative cell just before it
    announces a 512x512x512 cube and names no 256 anywhere. *)
Theorem pinning_cell_runs bench s s' :
  exec_stmts bench pinning_cell s = Done s' ->
  (exists v,
     user_ns s !! "benchmark" = Some v
     /\ (exists v2 v3,
           runs s' = runs s ++
             ((fun w => Invocation w pinning_argv (apply_settings pinning_settings (environ s)))
              <$> [v; v2; v3]))
     /\ (leaves_unbound bench "benchmark" ->
         runs s' = runs s ++
           replicate 3 (Invocation v pinning_argv (apply_settings pinning_settings (environ s)))))
  /\ pinning_line = "%run $benchmark run -P acoustic -so 8 -d 256 256 256 --tn 50"
  /\ String.words pinning_line = "%run" :: "$benchmark" :: pinning_argv
  /\ run_argvs (heads_of pinning_cell) = [pinning_argv]
  /\ option_values "-d" pinning_argv = [["256"; "256"; "256"]]
  /\ cells !! 13 = Some (Markdown narrative_before_pinning)
  /\ forallb (mentions ["512x512x512"]) narrative_before_pinning = true
  /\ existsb (mentions ["256"]) narrative_before_pinning = false.
Proof.
  intros Hcell. pose proof (pinning_cell_shape bench s) as Hshape.
  rewrite Hcell in Hshape. destruct Hshape as (v & v2 & v3 & Hv & Hruns & _ & _ & Hkeep).
  split.
  { exists v. split; [exact Hv |]. split; [by exists v2, v3 |].
    intros Hunbound. destruct (Hkeep Hunbound) as [-> ->]. exact Hruns. }
  repeat split; vm_compute; reflexivity.
Qed.

Lemma bench_ok_leaves_unbound x : leaves_unbound bench_ok x.
Proof. intros inv raised globals [= _ <-]. apply lookup_empty. Qed.

Lemma pinning_cell_runs_witness :
  exec_stmts bench_ok pinning_cell ready_state = Done pinned_state
  /\ runs pinned_state =
       replicate 3 (Invocation benchmark_path pinning_argv (apply_settings pinning_settings ∅)).
Proof.
  assert (Hcell : exec_stmts bench_ok pinning_cell ready_state = Done pinned_state).
  { vm_compute. reflexivity. }
  split; [exact Hcell |].
  destruct (pinning_cell_runs bench_ok ready_state pinned_state Hcell)
    as [(v & Hv & _ & Hruns) _].
  assert (v = benchmark_path) as ->.
  { vm_compute in Hv. injection Hv as <-. reflexivity. }
  exact (Hruns (bench_ok_leaves_unbound "benchmark")).
Defined.


(** C9.  The settings that are made do accumulate: each invocation of
    a run sees every setting made before it and every variable of the
    starting environment, a setting that holds at one invocation holds
    at every later one, and no run removes a variable.  But the run
    the claim ends with does not happen.  With a script that is found
    and returns, the run from the empty state stops at the auto-tuning
    cell after eight invocations, which see 0, 0, 5, 5, 5, 5, 5 and 5
    settings; [DEVITO_AUTOTUNING] and [DEVITO_BACKEND] are never set.
    Whatever the script does, the trace of a run is an initial part of
    these eight, and no invocation sees either of the two variables
    other than the run found it: there is no run under
    [DEVITO_BACKEND=yask] made by the notebook. *)
Theorem environment_at_invocations :
  run_notebook bench_ok empty_state = Fail (SyntaxError autotuning_line) final_state
  /\ runs final_state = reached_runs benchmark_path ∅
  /\ trace (runs final_state) = reached_trace ∅
  /\ length (reached_trace ∅) = 8
  /\ environ final_state !! "DEVITO_AUTOTUNING" = None
  /\ environ final_state !! "DEVITO_BACKEND" = None
  /\ (forall bench s, exists k,
        k <= 8
        /\ trace (new_runs s (run_notebook bench s)) = take k (reached_trace (environ s)))
  /\ (forall e,
        Forall2 (fun t n => in_force (take n notebook_env) t.2 /\ dom e ⊆ dom t.2)
                (reached_trace e) (take 8 settings_in_force))
  /\ (forall e i j a b kv,
        i <= j ->
        reached_trace e !! i = Some a ->
        reached_trace e !! j = Some b ->
        kv ∈ notebook_env ->
        a.2 !! kv.1 = Some kv.2 ->
        b.2 !! kv.1 = Some kv.2)
  /\ (forall bench s,
        Forall (fun inv =>
                  env_at inv !! "DEVITO_AUTOTUNING" = environ s !! "DEVITO_AUTOTUNING"
                  /\ env_at inv !! "DEVITO_BACKEND" = environ s !! "DEVITO_BACKEND")
               (new_runs s (run_notebook bench s)))
  /\ (forall bench s,
        dom (environ s) ⊆ dom (environ (state_of (run_notebook bench s)))).
Proof.
  split; [apply run_from_empty |].
  split; [apply final_state_runs |].
  split; [vm_compute; reflexivity |].
  split; [reflexivity |].
  split; [vm_compute; reflexivity |].
  split; [vm_compute; reflexivity |].
  split; [apply run_trace_prefix |].
  split.
  { intros e. unfold reached_trace, command_lines, settings_in_force.
    cbn [zip_with take].
    repeat (apply Forall2_cons_2;
            [split; [apply prefix_in_force | apply apply_settings_dom] |]).
    apply Forall2_nil_2. }
  split.
  { intros e i j a b [k v] Hij Ha Hb Hkv Hk. cbn [fst snd] in *.
    unfold reached_trace in Ha, Hb.
    apply lookup_take_Some in Ha as [Ha _]. apply lookup_take_Some in Hb as [Hb _].
    apply lookup_zip_with_Some in Ha as (args1 & n & -> & _ & Hn).
    apply lookup_zip_with_Some in Hb as (args2 & n' & -> & _ & Hn').
    cbn [snd] in *.
    eapply setting_persists; [| done..].
    eapply sorted_lookup_le; [apply settings_in_force_sorted | exact Hij | done..]. }
  split.
  { intros bench s. eapply Forall_impl; [apply never_reached |].
    intros inv (_ & Ht & Hb). by split. }
  intros bench s. rewrite run_notebook_unfold. apply environ_grows.
Qed.

(** * Beyond the claims: how runs end, and cells on their own *)



(** X3.  If the seven settings already hold when a run starts, the run
    leaves the environment as it is, wherever it stops, and every
    invocation runs in that one environment. *)
Theorem settings_in_force_are_kept bench s :
  in_force notebook_env (environ s) ->
  environ (state_of (run_notebook bench s)) = environ s
  /\ Forall (fun inv => env_at inv = environ s) (new_runs s (run_notebook bench s)).
Proof.
  intros Hforce. rewrite run_notebook_unfold.
  assert (Hsub : env_settings (live_heads program) ⊆ notebook_env).
  { rewrite env_settings_live. apply subseteq_take. }
  destruct (settled_environment bench program s Hsub Hforce) as [Henv (new & Hruns & Hnew)].
  split; [exact Henv |]. by rewrite (new_runs_app _ _ _ Hruns).
Qed.

Lemma settings_in_force_are_kept_witness :
  in_force notebook_env (environ configured_state)
  /\ environ (state_of (run_notebook bench_raises configured_state))
     = environ configured_state
  /\ length (new_runs configured_state (run_notebook bench_raises configured_state)) = 8.
Proof.
  assert (Hforce : in_force notebook_env (environ configured_state)).
  { unfold in_force, notebook_env. forall_by_compute. }
  split; [exact Hforce |].
  split; [| vm_compute; reflexivity].
  exact (proj1 (settings_in_force_are_kept bench_raises configured_state Hforce)).
Defined.

(** ** A script that defines [run] *)






(** ** Cells on their own *)

(** X5.  Every invocation depends on the first code cell: in a state
    where the name [benchmark] is not bound, none of the later cells,
    run on its own or all in order, invokes the script, whatever the
    script would do. *)
Theorem no_invocation_without_benchmark bench s :
  user_ns s !! "benchmark" = None ->
  Forall (fun c => runs (state_of (exec_stmts bench c s)) = runs s) later_cells
  /\ runs (state_of (run_cells bench later_cells s)) = runs s.
Proof.
  destruct s as [e0 n0 c0 o0 sh0 r0 t0]. cbn [user_ns]. intros Hunbound.
  unfold later_cells. rewrite program_ast. cbn [drop]. split.
  - repeat (apply Forall_cons_2; [symbolic; reflexivity |]). apply Forall_nil_2.
  - symbolic; reflexivity.
Qed.

Lemma no_invocation_without_benchmark_witness :
  user_ns empty_state !! "benchmark" = None
  /\ runs (state_of (run_cells bench_raises later_cells empty_state)) = [].
Proof.
  assert (Hunbound : user_ns empty_state !! "benchmark" = None) by reflexivity.
  split; [exact Hunbound |].
  exact (proj2 (no_invocation_without_benchmark bench_raises empty_state Hunbound)).
Defined.



